(** * Orders API: order commit, transactional outbox and inventory feedback

    A shallow embedding of the order-commit transaction, the outbox store,
    the event publisher and the inventory feedback consumer of the orders
    service, with the properties the specification states about them.

    PostgreSQL tables are finite maps from primary key to row, a repository
    method is a state transformer over the database that may raise, and
    [conn.transaction()] restores the state the block started from when the
    block raises. *)

From Stdlib Require Import ZArith Lia SpecFloat Ascii.
From stdpp Require Import gmap strings list fin_maps sorting pretty.

Set Warnings "-register-all".

Local Open Scope Z_scope.

(** ** Values *)

(** A [uuid.UUID] is its 128-bit integer, a [datetime] is a count of
    microseconds, a Python [float] is an IEEE 754 value ([spec_float]). *)
Abbreviation UUID := N (only parsing).
Abbreviation datetime := Z (only parsing).

(** What [json.loads] builds and [json.dumps] takes: [None], [bool], [int],
    [float], [str], [list] and [dict] (the items of the dict, keys unique). *)
Inductive json : Type :=
| JNull
| JBool (b : bool)
| JInt (n : Z)
| JFloat (f : spec_float)
| JStr (s : string)
| JArr (l : list json)
| JObj (items : list (string * json)).

(** Python truth value of a decoded JSON value. *)
Definition truthy (j : json) : bool :=
  match j with
  | JNull => false
  | JBool b => b
  | JInt n => negb (n =? 0)
  | JFloat (S754_zero _) => false
  | JFloat _ => true
  | JStr s => negb (String.eqb s "")
  | JArr l => match l with [] => false | _ => true end
  | JObj items => match items with [] => false | _ => true end
  end.

(** [d.get(key)] on a dict: the value, or [None]. *)
Fixpoint dict_get (key : string) (items : list (string * json)) : json :=
  match items with
  | [] => JNull
  | (k, v) :: rest => if String.eqb k key then v else dict_get key rest
  end.

(** [x == "literal"] for a decoded JSON value [x]. *)
Definition json_eq_str (j : json) (s : string) : bool :=
  match j with
  | JStr t => String.eqb t s
  | _ => false
  end.

(** ** Exceptions and results *)

Inductive exn : Type :=
| InsufficientStockError (msg : string)
| InvalidOrderDataError (msg : string)
| IntegrityConstraintViolationError
| TooManyConnectionsError
| NegativeLimitError
| JSONDecodeError
| ValueError
| AttributeError
| AMQPError.

Inductive result (A : Type) : Type :=
| Return (a : A)
| Raise (e : exn).
Arguments Return {A} a.
Arguments Raise {A} e.

(** ** Domain models *)

Inductive OrderStatus : Type :=
| PENDING | PROCESSING | COMPLETED | FAILED | CANCELLED.

Global Instance OrderStatus_eq_dec : EqDecision OrderStatus.
Proof. solve_decision. Defined.

Module Order.
Record t : Type := mk {
  id : UUID;
  customer_id : UUID;
  product_id : UUID;
  quantity : Z;
  total_amount : spec_float;
  status : OrderStatus;
  created_at : datetime;
  updated_at : datetime
}.

(** [Order.create_new]; [uuid4()] and [datetime.utcnow()] are inputs. *)
Definition create_new (uuid4 : UUID) (utcnow : datetime)
    (customer_id product_id : UUID) (quantity : Z) (total_amount : spec_float) : t :=
  mk uuid4 customer_id product_id quantity total_amount PENDING utcnow utcnow.

Definition set_status (new_status : OrderStatus) (now : datetime) (o : t) : t :=
  mk (id o) (customer_id o) (product_id o) (quantity o) (total_amount o)
     new_status (created_at o) now.
End Order.

Module OutboxEvent.
Record t : Type := mk {
  id : UUID;
  aggregate_id : UUID;
  aggregate_type : string;
  event_type : string;
  event_data : json;
  created_at : datetime;
  processed_at : option datetime;
  status : string;
  retry_count : Z;
  max_retries : Z
}.

Definition set_retry (count : Z) (new_status : string) (e : t) : t :=
  mk (id e) (aggregate_id e) (aggregate_type e) (event_type e) (event_data e)
     (created_at e) (processed_at e) new_status count (max_retries e).

Definition set_processed (new_status : string) (at_ : option datetime) (e : t) : t :=
  mk (id e) (aggregate_id e) (aggregate_type e) (event_type e) (event_data e)
     (created_at e) at_ new_status (retry_count e) (max_retries e).

(** [OutboxEvent.increment_retry] of the domain model: the count is
    incremented first and the incremented count is compared. *)
Definition increment_retry (e : t) : t :=
  let count := retry_count e + 1 in
  if count >=? max_retries e then set_retry count "FAILED" e
  else set_retry count (status e) e.

(** [OutboxEvent.mark_as_processed] of the domain model. *)
Definition mark_as_processed (utcnow : datetime) (e : t) : t :=
  set_processed "PROCESSED" (Some utcnow) e.
End OutboxEvent.

Module Product.
Record t : Type := mk {
  id : UUID;
  name : string;
  description : option string;
  price : spec_float;
  sku : option string;
  stock_quantity : Z;
  created_at : datetime;
  updated_at : datetime
}.

Definition set_stock (q : Z) (now : datetime) (p : t) : t :=
  mk (id p) (name p) (description p) (price p) (sku p) q (created_at p) now.

(** [Product.update_stock] of the domain model: refuses a negative
    result. *)
Definition update_stock (utcnow : datetime) (quantity : Z) (p : t) : result t :=
  if stock_quantity p + quantity <? 0 then Raise ValueError
  else Return (set_stock (stock_quantity p + quantity) utcnow p).

(** [Product.reserve_stock] of the domain model. *)
Definition reserve_stock (utcnow : datetime) (quantity : Z) (p : t) : result (t * bool) :=
  if stock_quantity p <? quantity then Return (p, false)
  else match update_stock utcnow (- quantity) p with
       | Return p' => Return (p', true)
       | Raise e => Raise e
       end.
End Product.

(** ** The database *)

(** The three tables in scope, keyed by primary key, and whether
    [db_manager.get_connection()] hands out a connection. *)
Record Database : Type := mkDatabase {
  products : gmap N Product.t;
  orders : gmap N Order.t;
  outbox_events : gmap N OutboxEvent.t;
  pool_available : bool
}.

Definition with_products (f : gmap N Product.t -> gmap N Product.t) (d : Database) : Database :=
  mkDatabase (f (products d)) (orders d) (outbox_events d) (pool_available d).
Definition with_orders (f : gmap N Order.t -> gmap N Order.t) (d : Database) : Database :=
  mkDatabase (products d) (f (orders d)) (outbox_events d) (pool_available d).
Definition with_outbox_events (f : gmap N OutboxEvent.t -> gmap N OutboxEvent.t) (d : Database) : Database :=
  mkDatabase (products d) (orders d) (f (outbox_events d)) (pool_available d).

(** A database action: reads and writes the tables, returns or raises. *)
Definition Db (A : Type) : Type := Database -> Database * result A.

Definition ret {A} (a : A) : Db A := fun d => (d, Return a).
Definition raise {A} (e : exn) : Db A := fun d => (d, Raise e).
Definition bind {A B} (m : Db A) (k : A -> Db B) : Db B :=
  fun d => match m d with
           | (d', Return a) => k a d'
           | (d', Raise e) => (d', Raise e)
           end.

Declare Scope db_scope.
Delimit Scope db_scope with db.
Notation "x <- m ;; k" := (bind m (fun x => k))
  (at level 100, m at next level, right associativity) : db_scope.
Notation "m ;;; k" := (bind m (fun _ => k))
  (at level 100, right associativity) : db_scope.

(** [async with db_manager.get_connection() as conn]: raises when the pool
    hands out no connection, else runs the block. *)
Definition get_connection {A} (block : Db A) : Db A :=
  fun d => if pool_available d then block d else (d, Raise TooManyConnectionsError).

(** [async with conn.transaction()]: commit when the block returns, roll
    back to the state at entry when it raises. *)
Definition transaction {A} (block : Db A) : Db A :=
  fun d => match block d with
           | (d', Return a) => (d', Return a)
           | (_, Raise e) => (d, Raise e)
           end.

(** *** Statements *)

(** [UPDATE products SET ... WHERE id = $1 AND cond RETURNING ...]: the
    updated row, or no row. Every expression of SET reads the old row. *)
Definition update_products (pid : N) (cond : Product.t -> bool)
    (set : Product.t -> Product.t) : Db (option Product.t) :=
  fun d => match products d !! pid with
           | Some p => if cond p
                       then (with_products <[pid := set p]> d, Return (Some (set p)))
                       else (d, Return None)
           | None => (d, Return None)
           end.

(** [UPDATE orders SET ... WHERE id = $1]: the number of rows updated. *)
Definition update_orders (oid : N) (set : Order.t -> Order.t) : Db nat :=
  fun d => match orders d !! oid with
           | Some o => (with_orders <[oid := set o]> d, Return 1%nat)
           | None => (d, Return 0%nat)
           end.

(** [UPDATE outbox_events SET ... WHERE id = $1]: the number of rows
    updated. *)
Definition update_outbox_events (eid : N) (set : OutboxEvent.t -> OutboxEvent.t) : Db nat :=
  fun d => match outbox_events d !! eid with
           | Some e => (with_outbox_events <[eid := set e]> d, Return 1%nat)
           | None => (d, Return 0%nat)
           end.

(** [INSERT INTO orders ... RETURNING ...]: the primary key is unique. *)
Definition insert_order (o : Order.t) : Db Order.t :=
  fun d => match orders d !! Order.id o with
           | Some _ => (d, Raise IntegrityConstraintViolationError)
           | None => (with_orders <[Order.id o := o]> d, Return o)
           end.

(** [INSERT INTO outbox_events ...]: the primary key is unique. *)
Definition insert_outbox_event (e : OutboxEvent.t) : Db unit :=
  fun d => match outbox_events d !! OutboxEvent.id e with
           | Some _ => (d, Raise IntegrityConstraintViolationError)
           | None => (with_outbox_events <[OutboxEvent.id e := e]> d, Return tt)
           end.

(** ** ProductRepository *)

Module ProductRepository.
Local Open Scope db_scope.

(** [SET stock_quantity = stock_quantity + $2 WHERE id = $1 RETURNING
    stock_quantity]; [False] when the returned quantity is negative. *)
Definition update_stock (now : datetime) (product_id : N) (quantity : Z) : Db bool :=
  get_connection (
    row <- update_products product_id (fun _ => true)
             (fun p => Product.set_stock (Product.stock_quantity p + quantity) now p) ;;
    match row with
    | Some p => if Product.stock_quantity p <? 0 then ret false else ret true
    | None => ret true
    end).

(** [SET stock_quantity = stock_quantity - $2 WHERE id = $1 AND
    stock_quantity >= $2 RETURNING stock_quantity]. *)
Definition reserve_stock (now : datetime) (product_id : N) (quantity : Z) : Db bool :=
  get_connection (
    row <- update_products product_id
             (fun p => quantity <=? Product.stock_quantity p)
             (fun p => Product.set_stock (Product.stock_quantity p - quantity) now p) ;;
    match row with
    | None => ret false
    | Some _ => ret true
    end).
End ProductRepository.

(** The available quantity of a product, as a reader sees it. *)
Definition stock_of (d : Database) (pid : N) : option Z :=
  Product.stock_quantity <$> products d !! pid.

(** ** OrderRepository *)

Module OrderRepository.
Local Open Scope db_scope.

(** The row read back as a domain [Order]. *)
Definition _row_to_order (row : Order.t) : Order.t := row.

(** [OrderRepository.get_by_id]. *)
Definition get_by_id (order_id : N) : Db (option Order.t) :=
  get_connection (fun d => (d, Return (_row_to_order <$> orders d !! order_id))).

(** [UPDATE orders SET status = $2, updated_at = NOW() WHERE id = $1];
    [True] when the command tag is [UPDATE 1]. *)
Definition update_status (now : datetime) (order_id : N) (new_status : OrderStatus) : Db bool :=
  get_connection (
    count <- update_orders order_id (Order.set_status new_status now) ;;
    ret (Nat.eqb count 1)).

(** The stock reservation inside the commit transaction: the same
    conditional update as [ProductRepository.reserve_stock]; no row back
    raises [InsufficientStockError]. *)
Definition reserve_in_transaction (now : datetime) (product_id : N) (quantity : Z) : Db unit :=
  stock_row <- update_products product_id
                 (fun p => quantity <=? Product.stock_quantity p)
                 (fun p => Product.set_stock (Product.stock_quantity p - quantity) now p) ;;
  match stock_row with
  | None => raise (InsufficientStockError ("Insufficient stock. Requested: " +:+ pretty quantity))
  | Some _ => ret tt
  end.

(** [OrderRepository.create_with_outbox_event]: inside one transaction,
    the reservation (only under [if product_id and quantity is not None]),
    then the order row, then the outbox row. *)
Definition create_with_outbox_event (now : datetime) (order : Order.t)
    (outbox_event : OutboxEvent.t) (product_id : option N) (quantity : option Z)
    : Db Order.t :=
  get_connection (
    order_row <- transaction (
      match product_id, quantity with
      | Some pid, Some q => reserve_in_transaction now pid q
      | _, _ => ret tt
      end ;;;
      order_row <- insert_order order ;;
      insert_outbox_event outbox_event ;;;
      ret order_row) ;;
    ret (_row_to_order order_row)).
End OrderRepository.

(** ** OutboxEventRepository *)

(** [ORDER BY created_at ASC]. *)
Definition created_le (e1 e2 : OutboxEvent.t) : Prop :=
  OutboxEvent.created_at e1 <= OutboxEvent.created_at e2.

Global Instance created_le_dec e1 e2 : Decision (created_le e1 e2).
Proof. unfold created_le. apply _. Defined.

Definition is_pending (e : OutboxEvent.t) : Prop := OutboxEvent.status e = "PENDING".

Global Instance is_pending_dec e : Decision (is_pending e).
Proof. unfold is_pending. apply _. Defined.

Module OutboxEventRepository.
Local Open Scope db_scope.

(** [_row_to_event]: [OutboxEvent(..., event_data=row['event_data'], ...)].
    The column holds the JSON text that [create_with_outbox_event] wrote
    ([orjson.dumps(...).decode()]); no codec is registered on the pool, so
    asyncpg hands that text back as a [str], and the field
    [event_data: Dict[str, Any]] refuses a [str]: pydantic's
    [ValidationError], a [ValueError], for every row. In the table of this
    embedding [event_data] is the value whose JSON text is stored. *)
Definition _row_to_event (row : OutboxEvent.t) : result OutboxEvent.t := Raise ValueError.

(** [[self._row_to_event(row) for row in rows]]: the first row that fails
    ends the comprehension. *)
Fixpoint rows_to_events (rows : list OutboxEvent.t) : result (list OutboxEvent.t) :=
  match rows with
  | [] => Return []
  | row :: rest =>
    match _row_to_event row with
    | Raise e => Raise e
    | Return event =>
      match rows_to_events rest with
      | Raise e => Raise e
      | Return events => Return (event :: events)
      end
    end
  end.

(** The rows of [SELECT ... FROM outbox_events WHERE status = 'PENDING'
    ORDER BY created_at ASC LIMIT $1]. *)
Definition select_pending (limit : Z) (tbl : gmap N OutboxEvent.t) : list OutboxEvent.t :=
  take (Z.to_nat limit) (merge_sort created_le (filter is_pending (map_to_list tbl).*2)).

(** [OutboxEventRepository.get_pending_events]: PostgreSQL refuses a
    negative LIMIT; the rows that come back are converted one by one. *)
Definition get_pending_events (limit : Z) : Db (list OutboxEvent.t) :=
  get_connection (fun d =>
    if limit <? 0 then (d, Raise NegativeLimitError)
    else (d, rows_to_events (select_pending limit (outbox_events d)))).

(** [UPDATE outbox_events SET status = 'PROCESSED', processed_at = NOW()
    WHERE id = $1]. *)
Definition mark_as_processed (now : datetime) (event_id : N) : Db bool :=
  get_connection (
    count <- update_outbox_events event_id
               (OutboxEvent.set_processed "PROCESSED" (Some now)) ;;
    ret (Nat.eqb count 1)).

(** [UPDATE outbox_events SET retry_count = retry_count + 1, status = CASE
    WHEN retry_count >= max_retries THEN 'FAILED' ELSE 'PENDING' END WHERE
    id = $1]: both expressions read the row as it was before the update. *)
Definition increment_retry_row (e : OutboxEvent.t) : OutboxEvent.t :=
  OutboxEvent.set_retry
    (OutboxEvent.retry_count e + 1)
    (if OutboxEvent.retry_count e >=? OutboxEvent.max_retries e then "FAILED" else "PENDING")
    e.

Definition increment_retry (event_id : N) : Db bool :=
  get_connection (
    count <- update_outbox_events event_id increment_retry_row ;;
    ret (Nat.eqb count 1)).

(** [OutboxEventRepository.create]: unlike [create_with_outbox_event] it
    hands [event.event_data], a dict, to the query as it is; asyncpg takes
    only a [str] for that argument and raises its [DataError], a
    [ValueError], before anything is sent. *)
Definition create (event : OutboxEvent.t) : Db OutboxEvent.t :=
  get_connection (raise ValueError).
End OutboxEventRepository.

(** ** Building the order and its event *)

(** [str(u)] for a [uuid.UUID]: 32 lower-case hexadecimal digits grouped
    8-4-4-4-12. *)
Definition hex_char (n : N) : ascii :=
  match String.get (N.to_nat n) "0123456789abcdef" with
  | Some c => c
  | None => "0"%char
  end.

Fixpoint hex_go (k : nat) (n : N) (acc : string) : string :=
  match k with
  | O => acc
  | S k' => hex_go k' (n / 16)%N (String (hex_char (n mod 16)%N) acc)
  end.

Definition str_uuid (u : N) : string :=
  let h := hex_go 32 u "" in
  String.substring 0 8 h +:+ "-" +:+ String.substring 8 4 h +:+ "-" +:+ String.substring 12 4 h
    +:+ "-" +:+ String.substring 16 4 h +:+ "-" +:+ String.substring 20 12 h.

Definition json_of_optional_str (s : option string) : json :=
  match s with
  | Some t => JStr t
  | None => JNull
  end.

Record OrderCreateRequest : Type := mkOrderCreateRequest {
  req_customer_id : UUID;
  req_product_id : UUID;
  req_quantity : Z;
  req_total_amount : spec_float
}.

(** What one execution draws from [uuid4()], [datetime.utcnow()] and
    PostgreSQL's [NOW()]. *)
Record Drawn : Type := mkDrawn {
  order_uuid4 : UUID;
  order_utcnow : datetime;
  event_uuid4 : UUID;
  event_utcnow : datetime;
  db_now : datetime
}.

(** The float 100000.0. *)
Definition float_100000 : spec_float := S754_finite false 6871947673600000 (-36).

Section UseCases.
(** [datetime.isoformat], from the Python standard library. *)
Variable isoformat : datetime -> string.

Local Open Scope db_scope.

(** [OutboxEvent.create_order_created_event]. *)
Definition create_order_created_event (uuid4 : UUID) (utcnow : datetime)
    (order : Order.t) (trace_id span_id : option string) : OutboxEvent.t :=
  let event_data := JObj [
    ("order_id", JStr (str_uuid (Order.id order)));
    ("customer_id", JStr (str_uuid (Order.customer_id order)));
    ("product_id", JStr (str_uuid (Order.product_id order)));
    ("quantity", JInt (Order.quantity order));
    ("total_amount", JFloat (Order.total_amount order));
    ("created_at", JStr (isoformat (Order.created_at order)));
    ("trace_id", json_of_optional_str trace_id);
    ("span_id", json_of_optional_str span_id) ] in
  OutboxEvent.mk uuid4 (Order.id order) "Order" "order.created" event_data
                 utcnow None "PENDING" 0 3.

(** [CreateOrderUseCase._validate_order_data]; a [UUID] is always true
    in a boolean context, so the two identifier checks never fire. *)
Definition _validate_order_data (request : OrderCreateRequest) : result unit :=
  if req_quantity request <=? 0
  then Raise (InvalidOrderDataError "Quantity must be greater than 0")
  else if req_quantity request >? 1000
  then Raise (InvalidOrderDataError "Quantity cannot exceed 1000 items")
  else if SFleb (req_total_amount request) (S754_zero false)
  then Raise (InvalidOrderDataError "Total amount must be greater than 0")
  else if SFltb float_100000 (req_total_amount request)
  then Raise (InvalidOrderDataError "Total amount cannot exceed $100,000")
  else Return tt.

(** [ProductRepository.get_by_id]. *)
Definition product_get_by_id (product_id : N) : Db (option Product.t) :=
  get_connection (fun d => (d, Return (products d !! product_id))).

(** [CreateOrderUseCase.execute]: validate, check that the product
    exists, build the order and the event, commit them with the
    reservation. The response carries the fields of the saved order. *)
Definition execute (drawn : Drawn) (request : OrderCreateRequest)
    (trace_id span_id : option string) : Db Order.t :=
  match _validate_order_data request with
  | Raise e => raise e
  | Return _ =>
    product <- product_get_by_id (req_product_id request) ;;
    match product with
    | None => raise (InvalidOrderDataError
                       ("Product not found: " +:+ str_uuid (req_product_id request)))
    | Some _ =>
      let order := Order.create_new (order_uuid4 drawn) (order_utcnow drawn)
                     (req_customer_id request) (req_product_id request)
                     (req_quantity request) (req_total_amount request) in
      let outbox_event := create_order_created_event (event_uuid4 drawn)
                            (event_utcnow drawn) order trace_id span_id in
      saved_order <- OrderRepository.create_with_outbox_event (db_now drawn)
                       order outbox_event
                       (Some (req_product_id request)) (Some (req_quantity request)) ;;
      ret saved_order
    end
  end.
(** The order and the event one execution builds. *)
Definition built_order (drawn : Drawn) (request : OrderCreateRequest) : Order.t :=
  Order.create_new (order_uuid4 drawn) (order_utcnow drawn)
    (req_customer_id request) (req_product_id request)
    (req_quantity request) (req_total_amount request).

Definition built_event (drawn : Drawn) (request : OrderCreateRequest)
    (trace_id span_id : option string) : OutboxEvent.t :=
  create_order_created_event (event_uuid4 drawn) (event_utcnow drawn)
    (built_order drawn request) trace_id span_id.

(** The database after a commit that went through. *)
Definition committed (drawn : Drawn) (request : OrderCreateRequest)
    (trace_id span_id : option string) (p : Product.t) (d : Database) : Database :=
  mkDatabase
    (<[req_product_id request :=
         Product.set_stock (Product.stock_quantity p - req_quantity request) (db_now drawn) p]>
       (products d))
    (<[order_uuid4 drawn := built_order drawn request]> (orders d))
    (<[event_uuid4 drawn := built_event drawn request trace_id span_id]> (outbox_events d))
    (pool_available d).

End UseCases.

(** ** Inventory feedback consumer *)

(** The repository as the consumer sees it: [OrderRepositoryInterface],
    over any store. *)
Class OrderRepositoryInterface (S : Type) : Type := {
  repo_update_status : N -> OrderStatus -> S -> S * result bool
}.

(** The PostgreSQL repository; [now] is what [NOW()] reads. *)
Definition PostgresOrderRepository (now : datetime) : OrderRepositoryInterface Database :=
  {| repo_update_status := OrderRepository.update_status now |}.

(** What [json.loads(message.body.decode())] makes of a message body:
    [decode] raises [UnicodeDecodeError] (a [ValueError]), [json.loads]
    raises [JSONDecodeError], or a value comes back. *)
Inductive IncomingMessage : Type :=
| Undecodable
| Unparseable
| Payload (event_data : json).

(** How [async with message.process()] settles the message: acknowledged
    when the block ends normally, rejected when an exception leaves it. *)
Inductive settled : Type := Acked | Rejected (e : exn).

(** The order id the handler reads off a dict. *)
Definition order_id_of (items : list (string * json)) : json :=
  if truthy (dict_get "orderId" items) then dict_get "orderId" items
  else dict_get "order_id" items.

Section InventoryEventConsumer.
Context {S : Type} (order_repository : OrderRepositoryInterface S).
(** [uuid.UUID(hex)] on a [str]: the identifier, or [ValueError]. *)
Variable uuid_of_str : string -> option N.

(** [UUID(order_id)] on a decoded value: the constructor calls
    [hex.replace], which only a [str] has. *)
Definition UUID_of_json (order_id : json) : result N :=
  match order_id with
  | JStr s => match uuid_of_str s with
              | Some u => Return u
              | None => Raise ValueError
              end
  | _ => Raise AttributeError
  end.

(** [event_data.get(key)]: only a dict has [get]. *)
Definition event_get (event_data : json) (key : string) : result json :=
  match event_data with
  | JObj items => Return (dict_get key items)
  | _ => Raise AttributeError
  end.

(** The block under [try], for the feed that expects [expected] and sets
    [target]. *)
Definition try_block (expected : string) (target : OrderStatus)
    (message : IncomingMessage) (s : S) : S * result unit :=
  match message with
  | Undecodable => (s, Raise ValueError)
  | Unparseable => (s, Raise JSONDecodeError)
  | Payload event_data =>
    match event_get event_data "orderId", event_get event_data "order_id",
          event_get event_data "status" with
    | Return a, Return b, Return status =>
      let order_id := if truthy a then a else b in
      if negb (truthy order_id) then (s, Return tt)
      else if negb (json_eq_str status expected) then (s, Return tt)
      else match UUID_of_json order_id with
           | Raise e => (s, Raise e)
           | Return order_uuid =>
             match repo_update_status order_uuid target s with
             | (s', Return _) => (s', Return tt)
             | (s', Raise e) => (s', Raise e)
             end
           end
    | _, _, _ => (s, Raise AttributeError)
    end
  end.

(** The [except] clauses: [JSONDecodeError] and [ValueError] are logged
    and swallowed, anything else is raised again. *)
Definition process_message (expected : string) (target : OrderStatus)
    (message : IncomingMessage) (s : S) : S * settled :=
  match try_block expected target message s with
  | (s', Return _) => (s', Acked)
  | (s', Raise JSONDecodeError) => (s', Acked)
  | (s', Raise ValueError) => (s', Acked)
  | (s', Raise e) => (s', Rejected e)
  end.

(** The order a message makes the handler update, if any. *)
Definition updated_order (expected : string) (message : IncomingMessage) : option N :=
  match message with
  | Payload (JObj items) =>
    if truthy (order_id_of items) && json_eq_str (dict_get "status" items) expected
    then match UUID_of_json (order_id_of items) with
         | Return u => Some u
         | Raise _ => None
         end
    else None
  | _ => None
  end.

Definition process_reserved_message := process_message "reserved" COMPLETED.
Definition process_rejected_message := process_message "rejected" FAILED.
End InventoryEventConsumer.

(** ** Event publisher *)

Inductive DeliveryMode : Type := NOT_PERSISTENT | PERSISTENT.
Inductive ExchangeType : Type := DIRECT | FANOUT | TOPIC | HEADERS.

Record Message : Type := mkMessage {
  body : string;
  delivery_mode : DeliveryMode;
  message_id : string;
  headers : list (string * string)
}.

(** One [exchange.publish(message, routing_key=...)] as the broker receives
    it; the default exchange of a channel has the empty name. *)
Record Published : Type := mkPublished {
  exchange : string;
  routing_key : string;
  message : Message
}.

(** The publisher's channel and the broker behind it. *)
Record Broker : Type := mkBroker {
  channel_open : bool;
  reachable : bool;
  accepting : bool;
  declared : list (string * ExchangeType * bool);
  received : list Published
}.

Definition Amqp (A : Type) : Type := Broker -> Broker * result A.

Section RabbitMQEventPublisher.
(** [json.dumps], from the Python standard library. *)
Variable json_dumps : json -> string.

(** [RabbitMQEventPublisher.connect]: open a channel and declare the
    durable topic exchange [amq.topic]. *)
Definition connect : Amqp unit :=
  fun b => if reachable b
           then (mkBroker true (reachable b) (accepting b)
                          (declared b ++ [("amq.topic", TOPIC, true)]) (received b),
                 Return tt)
           else (b, Raise AMQPError).

(** [self.channel.default_exchange.publish(message, routing_key)]. *)
Definition default_exchange_publish (m : Message) (key : string) : Amqp unit :=
  fun b => if accepting b
           then (mkBroker (channel_open b) (reachable b) (accepting b) (declared b)
                          (received b ++ [mkPublished "" key m]),
                 Return tt)
           else (b, Raise AMQPError).

Definition routing_keys : list (string * string) :=
  [ ("order.created", "order.created");
    ("payment.authorized", "payment.authorized");
    ("payment.declined", "payment.declined");
    ("inventory.reserved", "inventory.reserved");
    ("inventory.rejected", "inventory.rejected");
    ("notification.sent", "notification.sent") ].

Fixpoint lookup_default (key default : string) (table : list (string * string)) : string :=
  match table with
  | [] => default
  | (k, v) :: rest => if String.eqb k key then v else lookup_default key default rest
  end.

(** [RabbitMQEventPublisher._get_routing_key]. *)
Definition _get_routing_key (event_type : string) : string :=
  lookup_default event_type event_type routing_keys.

Definition build_message (event : OutboxEvent.t) : Message :=
  mkMessage (json_dumps (OutboxEvent.event_data event)) PERSISTENT
            (str_uuid (OutboxEvent.id event))
            [ ("event_type", OutboxEvent.event_type event);
              ("aggregate_id", str_uuid (OutboxEvent.aggregate_id event));
              ("aggregate_type", OutboxEvent.aggregate_type event) ].

(** The block under [try] of [publish_event]. *)
Definition publish_try (event : OutboxEvent.t) : Amqp bool :=
  fun b =>
    match (if channel_open b then (b, Return tt) else connect b) with
    | (b1, Raise e) => (b1, Raise e)
    | (b1, Return _) =>
      let routing_key := _get_routing_key (OutboxEvent.event_type event) in
      let message := build_message event in
      match default_exchange_publish message routing_key b1 with
      | (b2, Raise e) => (b2, Raise e)
      | (b2, Return _) => (b2, Return true)
      end
    end.

(** [RabbitMQEventPublisher.publish_event]: [except Exception] logs and
    returns [False]. *)
Definition publish_event (event : OutboxEvent.t) : Amqp bool :=
  fun b => match publish_try event b with
           | (b', Return r) => (b', Return r)
           | (b', Raise _) => (b', Return false)
           end.
End RabbitMQEventPublisher.

(** ** Readers, traces and example data of the statements *)

(** The status of an order, as a reader sees it. *)
Definition status_of (d : Database) (oid : N) : option OrderStatus :=
  Order.status <$> orders d !! oid.

(** The same tables behind a pool in another state. *)
Definition set_pool (avail : bool) (d : Database) : Database :=
  mkDatabase (products d) (orders d) (outbox_events d) avail.

(** A catalogue with one product, five in stock. *)
Definition widget : Product.t :=
  Product.mk 1 "widget" None (S754_zero false) None 5 0 0.

Definition shop : Database :=
  mkDatabase {[ 1%N := widget ]} ∅ ∅ true.

(** An event that has failed twice, with the default budget of three. *)
Definition twice_failed : OutboxEvent.t :=
  OutboxEvent.mk 40 7 "Order" "order.created" JNull 100 None "PENDING" 2 3.

Definition outbox_one : Database :=
  mkDatabase ∅ ∅ {[ 40%N := twice_failed ]} true.

(** An order that the inventory has already confirmed. *)
Definition confirmed_order : Order.t :=
  Order.mk 7 3 1 2 (S754_zero false) COMPLETED 100 200.

Definition one_confirmed : Database :=
  mkDatabase ∅ {[ 7%N := confirmed_order ]} ∅ true.

(** A pending order, for the feedback examples. *)
Definition pending_order : Order.t :=
  Order.mk 7 3 1 2 (S754_zero false) PENDING 100 100.

Definition one_pending : Database :=
  mkDatabase ∅ {[ 7%N := pending_order ]} ∅ true.

(** The rows the poll's query selects when the limit leaves room for
    all of them: the pending rows of the table, oldest first. *)
Definition pending_fifo (tbl : gmap N OutboxEvent.t) : list OutboxEvent.t :=
  merge_sort created_le (filter is_pending (map_to_list tbl).*2).

(** What the dispatcher and the request path do to the outbox. *)
Inductive outbox_op : Type :=
| OpIncrementRetry (event_id : N)
| OpMarkAsProcessed (now : Z) (event_id : N)
| OpCreate (event : OutboxEvent.t)
| OpCommitOrder (now : Z) (order : Order.t) (event : OutboxEvent.t)
                (product_id : option N) (quantity : option Z)
| OpPoll (limit : Z).

Definition run_op (op : outbox_op) (d : Database) : Database :=
  match op with
  | OpIncrementRetry eid => (OutboxEventRepository.increment_retry eid d).1
  | OpMarkAsProcessed now eid => (OutboxEventRepository.mark_as_processed now eid d).1
  | OpCreate e => (OutboxEventRepository.create e d).1
  | OpCommitOrder now o e pid q => (OrderRepository.create_with_outbox_event now o e pid q d).1
  | OpPoll limit => (OutboxEventRepository.get_pending_events limit d).1
  end.

Definition run_ops (ops : list outbox_op) (d : Database) : Database :=
  foldl (fun acc op => run_op op acc) d ops.

(** An event out of budget: not pending, and the count has reached the
    cap, so that no later increment makes it pending again. *)
Definition out_of_budget (d : Database) (eid : N) : Prop :=
  exists e, outbox_events d !! eid = Some e
            /\ OutboxEvent.status e <> "PENDING"
            /\ OutboxEvent.max_retries e <= OutboxEvent.retry_count e.

(** The first step of the transaction. *)
Definition reservation (now : Z) (product_id : option N) (quantity : option Z) : Db unit :=
  match product_id, quantity with
  | Some pid, Some q => OrderRepository.reserve_in_transaction now pid q
  | _, _ => ret tt
  end.

Definition insufficient (q : Z) : exn :=
  InsufficientStockError ("Insufficient stock. Requested: " +:+ pretty q).

(** An outbox with two pending events and one that ran out of budget. *)
Definition late_event : OutboxEvent.t :=
  OutboxEvent.mk 41 8 "Order" "order.created" JNull 200 None "PENDING" 0 3.
Definition early_event : OutboxEvent.t :=
  OutboxEvent.mk 42 9 "Order" "order.created" JNull 100 None "PENDING" 1 3.
Definition spent_event : OutboxEvent.t :=
  OutboxEvent.mk 43 10 "Order" "order.created" JNull 50 None "PENDING" 3 3.

Definition outbox_three : Database :=
  mkDatabase ∅ ∅ {[ 41%N := late_event; 42%N := early_event; 43%N := spent_event ]} true.

(** The scenario of the specification: two units at 99.98 against a stock
    of five. *)
Definition two_widgets : OrderCreateRequest :=
  mkOrderCreateRequest 3 1 2 (S754_finite false 7035467042882847 (-46)).

Definition drawn_once : Drawn := mkDrawn 7 1000 40 1001 1002.

Definition six_widgets : OrderCreateRequest :=
  mkOrderCreateRequest 3 1 6 (S754_finite false 7035467042882847 (-46)).

(** An order for fifty units of a product that has five. *)
Definition fifty_widgets : Order.t :=
  Order.mk 7 3 1 50 (S754_finite false 7035467042882847 (-46)) PENDING 1000 1000.

Definition fifty_widgets_event : OutboxEvent.t :=
  OutboxEvent.mk 40 7 "Order" "order.created" JNull 1001 None "PENDING" 0 3.

(** A reader of the plain and the hyphenated 32-digit spellings of a UUID,
    for the examples; Python's constructor also takes a few others. *)
Definition hex_value (c : ascii) : option N :=
  let n := N_of_ascii c in
  if ((48 <=? n) && (n <=? 57))%N then Some (n - 48)%N
  else if ((97 <=? n) && (n <=? 102))%N then Some (n - 87)%N
  else if ((65 <=? n) && (n <=? 70))%N then Some (n - 55)%N
  else None.

Fixpoint hex_parse (s : string) (count : nat) (acc : N) : option (nat * N) :=
  match s with
  | EmptyString => Some (count, acc)
  | String c rest =>
    if Ascii.eqb c "-" then hex_parse rest count acc
    else match hex_value c with
         | Some v => hex_parse rest (S count) (acc * 16 + v)%N
         | None => None
         end
  end.

Definition uuid_of_hex (s : string) : option N :=
  match hex_parse s 0 0 with
  | Some (count, n) => if Nat.eqb count 32 then Some n else None
  | None => None
  end.

(** A broker that is up, with the publisher not yet connected. *)
Definition fresh_broker : Broker := mkBroker false true true [] [].

(** ** Further methods of the repositories and the domain models *)

(** [Product.release_stock] of the domain model. *)
Definition release_stock (utcnow : datetime) (quantity : Z) (p : Product.t) : result Product.t :=
  Product.update_stock utcnow quantity p.

(** [ORDER BY created_at DESC]. *)
Definition created_ge (o1 o2 : Order.t) : Prop :=
  Order.created_at o2 <= Order.created_at o1.

Global Instance created_ge_dec o1 o2 : Decision (created_ge o1 o2).
Proof. unfold created_ge. apply _. Defined.

Definition of_customer (customer_id : N) (o : Order.t) : Prop :=
  Order.customer_id o = customer_id.

Global Instance of_customer_dec customer_id o : Decision (of_customer customer_id o).
Proof. unfold of_customer. apply _. Defined.

Module OrderQueries.
Local Open Scope db_scope.

(** [OrderRepository.create]: one INSERT outside any transaction block. *)
Definition create (order : Order.t) : Db Order.t :=
  get_connection (row <- insert_order order ;; ret (OrderRepository._row_to_order row)).

(** [OrderRepository.update]: every column but [created_at] is set from
    the argument. With no row under the id, [fetchrow] gives [None],
    [_row_to_order] fails on [row['status']], and its handler fails in turn
    on [row.get], which is the [AttributeError] that comes out. *)
Definition update (order : Order.t) : Db Order.t :=
  get_connection (fun d =>
    match orders d !! Order.id order with
    | Some old =>
      let row := Order.mk (Order.id order) (Order.customer_id order)
                   (Order.product_id order) (Order.quantity order)
                   (Order.total_amount order) (Order.status order)
                   (Order.created_at old) (Order.updated_at order) in
      (with_orders <[Order.id order := row]> d, Return (OrderRepository._row_to_order row))
    | None => (d, Raise AttributeError)
    end).

(** [... ORDER BY created_at DESC LIMIT limit OFFSET offset]; PostgreSQL
    refuses a negative LIMIT and a negative OFFSET. *)
Definition newest_first (rows : list Order.t) : list Order.t :=
  merge_sort created_ge rows.

Definition page (limit offset : Z) (rows : list Order.t) : list Order.t :=
  take (Z.to_nat limit) (drop (Z.to_nat offset) rows).

(** [OrderRepository.list_by_customer]. *)
Definition list_by_customer (customer_id : N) (limit offset : Z) : Db (list Order.t) :=
  get_connection (fun d =>
    if (limit <? 0) || (offset <? 0) then (d, Raise NegativeLimitError)
    else (d, Return (OrderRepository._row_to_order <$>
                       page limit offset
                         (newest_first (filter (of_customer customer_id)
                                          (map_to_list (orders d)).*2))))).
End OrderQueries.

(** ** Acquiring a connection *)

(** The float 0.1, and [retry_delay *= 2] on a finite float in the normal
    range. *)
Definition float_tenth : spec_float := S754_finite false 7205759403792794 (-56).

Definition float_double (f : spec_float) : spec_float :=
  match f with
  | S754_finite s m e => S754_finite s m (e + 1)
  | _ => f
  end.

(** What one pass through [DatabaseManager.get_connection] did before it
    handed the connection to the block or gave up: how often it called
    [pool.acquire()], how long it slept in between, and how it ended
    ([None]: the loop ran out without yielding). *)
Record Acquisition : Type := mkAcquisition {
  acquire_calls : nat;
  slept : list spec_float;
  ended : option (result unit)
}.

(** The loop [for attempt in range(max_retries)]; [acquire attempt] is what
    [self._pool.acquire()] does at that attempt. *)
Fixpoint acquire_loop (acquire : nat -> result unit) (max_retries : nat)
    (attempts : list nat) (retry_delay : spec_float) : Acquisition :=
  match attempts with
  | [] => mkAcquisition 0 [] None
  | attempt :: rest =>
    match acquire attempt with
    | Return _ => mkAcquisition 1 [] (Some (Return tt))
    | Raise TooManyConnectionsError =>
      if (attempt <? max_retries - 1)%nat
      then let later := acquire_loop acquire max_retries rest (float_double retry_delay) in
           mkAcquisition (S (acquire_calls later)) (retry_delay :: slept later) (ended later)
      else mkAcquisition 1 [] (Some (Raise TooManyConnectionsError))
    | Raise e => mkAcquisition 1 [] (Some (Raise e))
    end
  end.

(** [DatabaseManager.get_connection] up to the [yield]: three attempts,
    starting with a delay of 0.1 s. *)
Definition acquire_connection (acquire : nat -> result unit) : Acquisition :=
  acquire_loop acquire 3 (seq 0 3) float_tenth.

(** ** Sequences of operations *)

(** What the request path, the dispatcher and the consumer do to the
    database. *)
Inductive service_op : Type :=
| SvcCreateOrder (drawn : Drawn) (request : OrderCreateRequest)
                 (trace_id span_id : option string)
| SvcUpdateStatus (now : Z) (order_id : N) (new_status : OrderStatus)
| SvcIncrementRetry (event_id : N)
| SvcMarkAsProcessed (now : Z) (event_id : N)
| SvcReserveStock (now : Z) (product_id : N) (quantity : Z)
| SvcPoll (limit : Z).

Definition run_service_op (isoformat : Z -> string) (op : service_op) (d : Database) : Database :=
  match op with
  | SvcCreateOrder drawn request trace_id span_id =>
    (execute isoformat drawn request trace_id span_id d).1
  | SvcUpdateStatus now oid st => (OrderRepository.update_status now oid st d).1
  | SvcIncrementRetry eid => (OutboxEventRepository.increment_retry eid d).1
  | SvcMarkAsProcessed now eid => (OutboxEventRepository.mark_as_processed now eid d).1
  | SvcReserveStock now pid q => (ProductRepository.reserve_stock now pid q d).1
  | SvcPoll limit => (OutboxEventRepository.get_pending_events limit d).1
  end.

Definition run_service (isoformat : Z -> string) (ops : list service_op) (d : Database) : Database :=
  foldl (fun acc op => run_service_op isoformat op acc) d ops.

(** Every outbox row names an order that is in the orders table. *)
Definition outbox_refers_to_orders (d : Database) : Prop :=
  forall k e, outbox_events d !! k = Some e ->
              is_Some (orders d !! OutboxEvent.aggregate_id e).

(** No product has a negative quantity. *)
Definition stock_nonnegative (d : Database) : Prop :=
  forall k p, products d !! k = Some p -> 0 <= Product.stock_quantity p.

(** The units of a product that the orders in the table have taken. *)
Definition quantity_for (product_id : N) (o : Order.t) : Z :=
  if decide (Order.product_id o = product_id) then Order.quantity o else 0.

Definition ordered_quantity (d : Database) (product_id : N) : Z :=
  foldr Z.add 0 (quantity_for product_id <$> (map_to_list (orders d)).*2).

(** The available quantity, zero for a product that is not there. *)
Definition stock_or_zero (d : Database) (product_id : N) : Z :=
  default 0 (stock_of d product_id).

(** A reservation made directly, outside an order commit. *)
Definition is_direct_reservation (op : service_op) : bool :=
  match op with
  | SvcReserveStock _ _ _ => true
  | _ => false
  end.

(** The sum of a list of quantities. *)
Definition sum_Z (l : list Z) : Z := foldr Z.add 0 l.

(** ** Example data for the further properties *)

Definition second_confirmed : Order.t :=
  Order.mk 8 3 1 1 (S754_zero false) COMPLETED 300 300.

Definition other_customer : Order.t :=
  Order.mk 9 4 1 1 (S754_zero false) PENDING 250 250.

Definition three_orders : Database :=
  mkDatabase ∅ {[ 7%N := pending_order; 8%N := second_confirmed; 9%N := other_customer ]} ∅ true.

(** An event that was published after one failed attempt. *)
Definition delivered_event : OutboxEvent.t :=
  OutboxEvent.mk 44 11 "Order" "order.created" JNull 60 (Some 70) "PROCESSED" 1 3.

Definition outbox_delivered : Database :=
  mkDatabase ∅ ∅ {[ 44%N := delivered_event ]} true.

(** * Properties *)

(** ** Readers and small facts *)

Lemma get_connection_available {A} (block : Db A) d :
  pool_available d = true -> get_connection block d = block d.
Proof. intros H. unfold get_connection. by rewrite H. Qed.

Lemma get_connection_exhausted {A} (block : Db A) d :
  pool_available d = false -> get_connection block d = (d, Raise TooManyConnectionsError).
Proof. intros H. unfold get_connection. by rewrite H. Qed.

Lemma update_products_hit pid cond set d p :
  products d !! pid = Some p -> cond p = true ->
  update_products pid cond set d = (with_products <[pid := set p]> d, Return (Some (set p))).
Proof. intros Hp Hc. unfold update_products. by rewrite Hp, Hc. Qed.

Lemma update_products_miss pid cond set d p :
  products d !! pid = Some p -> cond p = false ->
  update_products pid cond set d = (d, Return None).
Proof. intros Hp Hc. unfold update_products. by rewrite Hp, Hc. Qed.

Lemma update_products_absent pid cond set d :
  products d !! pid = None -> update_products pid cond set d = (d, Return None).
Proof. intros Hp. unfold update_products. by rewrite Hp. Qed.

(** The conditional update never leaves a negative quantity where there
    was none. *)
Lemma reserve_stock_keeps_nonnegative now pid q d k :
  (forall p, products d !! k = Some p -> 0 <= Product.stock_quantity p) ->
  forall p', products (ProductRepository.reserve_stock now pid q d).1 !! k = Some p' ->
             0 <= Product.stock_quantity p'.
Proof.
  intros Hinv p'. unfold ProductRepository.reserve_stock, get_connection, bind.
  destruct (pool_available d); [|by apply Hinv].
  unfold update_products.
  destruct (products d !! pid) as [p|] eqn:Hp; [|by apply Hinv].
  destruct (q <=? Product.stock_quantity p) eqn:Hq; simpl; [|by apply Hinv].
  destruct (decide (pid = k)) as [->|Hne].
  - rewrite lookup_insert_eq. intros [= <-]. simpl. lia.
  - rewrite lookup_insert_ne by done. apply Hinv.
Qed.

(** ** C2: the conditional reservation *)

(** C2. For a product in the table and a connection at hand,
    [reserve_stock] returns (it never raises); it returns [True] exactly
    when the available quantity is at least the requested one, and then the
    quantity is decremented by the request in that one update; otherwise it
    returns [False] and the database is unchanged. *)
Theorem reserve_stock_conditional (now : Z) (pid : N) (q : Z) (d : Database) (p : Product.t) :
  pool_available d = true ->
  products d !! pid = Some p ->
  exists d' r,
    ProductRepository.reserve_stock now pid q d = (d', Return r)
    /\ (r = true <-> q <= Product.stock_quantity p)
    /\ (r = true ->
          d' = with_products <[pid := Product.set_stock (Product.stock_quantity p - q) now p]> d
          /\ stock_of d' pid = Some (Product.stock_quantity p - q))
    /\ (r = false -> d' = d /\ stock_of d' pid = Some (Product.stock_quantity p)).
Proof.
  intros Hpool Hp.
  unfold ProductRepository.reserve_stock.
  rewrite get_connection_available by done. unfold bind.
  destruct (q <=? Product.stock_quantity p) eqn:Hq.
  - rewrite (update_products_hit _ _ _ _ p) by done.
    eexists _, true. split; [reflexivity|].
    apply Z.leb_le in Hq. repeat split; try done.
    unfold stock_of. simpl. by rewrite lookup_insert_eq.
  - rewrite (update_products_miss _ _ _ _ p) by done.
    eexists _, false. split; [reflexivity|].
    apply Z.leb_gt in Hq. repeat split; try done; try lia.
    unfold stock_of. by rewrite Hp.
Qed.

Lemma reserve_stock_conditional_witness :
  exists d' r,
    ProductRepository.reserve_stock 9 1 2 shop = (d', Return r)
    /\ (r = true <-> 2 <= Product.stock_quantity widget)
    /\ (r = true ->
          d' = with_products <[1%N := Product.set_stock (Product.stock_quantity widget - 2) 9 widget]> shop
          /\ stock_of d' 1 = Some (Product.stock_quantity widget - 2))
    /\ (r = false -> d' = shop /\ stock_of d' 1 = Some (Product.stock_quantity widget)).
Proof.
  apply (reserve_stock_conditional 9 1 2 shop widget); reflexivity.
Defined.

(** ** C5: stock that goes negative *)

(** C5. [update_stock] adds a negative quantity without a guard: on a
    product with five in stock, [update_stock(id, -10)] returns [False] and
    leaves minus five in the table for every later reader, where the domain
    model's [Product.update_stock] raises on the same input. *)
Theorem update_stock_leaves_negative :
  exists d',
    ProductRepository.update_stock 9 1 (-10) shop = (d', Return false)
    /\ stock_of shop 1 = Some 5
    /\ stock_of d' 1 = Some (-5)
    /\ Product.update_stock 9 (-10) widget = Raise ValueError.
Proof. eexists. repeat split; vm_compute; reflexivity. Qed.

(** ** C3: the retry counter *)

(** What the repository's update does to every row: the count goes up by
    one, and the status is FAILED exactly when the count before the update
    had reached [max_retries]. *)
Lemma increment_retry_row_spec e :
  let e' := OutboxEventRepository.increment_retry_row e in
  OutboxEvent.retry_count e' = OutboxEvent.retry_count e + 1
  /\ (OutboxEvent.status e' = "FAILED" <-> OutboxEvent.max_retries e < OutboxEvent.retry_count e')
  /\ (OutboxEvent.status e' = "PENDING" <-> OutboxEvent.retry_count e' <= OutboxEvent.max_retries e).
Proof.
  unfold OutboxEventRepository.increment_retry_row. simpl.
  destruct (OutboxEvent.retry_count e >=? OutboxEvent.max_retries e) eqn:H.
  - apply Z.geb_le in H. repeat split; try done; try lia.
  - assert (OutboxEvent.retry_count e < OutboxEvent.max_retries e).
    { rewrite Z.geb_leb in H. by apply Z.leb_gt in H. }
    repeat split; try done; try lia.
Qed.

(** C3. The third failure of an event with [max_retries = 3]: the
    repository's update brings [retry_count] to 3 and leaves the status
    PENDING, where the domain model's [increment_retry] sets FAILED. *)
Theorem increment_retry_third_failure_stays_pending :
  exists d' e',
    OutboxEventRepository.increment_retry 40 outbox_one = (d', Return true)
    /\ outbox_events d' !! 40%N = Some e'
    /\ OutboxEvent.retry_count e' = 3
    /\ OutboxEvent.max_retries e' = 3
    /\ OutboxEvent.status e' = "PENDING"
    /\ OutboxEvent.status (OutboxEvent.increment_retry twice_failed) = "FAILED".
Proof. eexists _, _. repeat split; vm_compute; reflexivity. Qed.

(** ** C4 and C9: status updates *)

(** What [update_status] does with a connection at hand: the status of an
    existing order is overwritten, whatever it was; a missing order changes
    nothing. *)
Lemma update_status_available now oid st d :
  pool_available d = true ->
  OrderRepository.update_status now oid st d =
    match orders d !! oid with
    | Some o => (with_orders <[oid := Order.set_status st now o]> d, Return true)
    | None => (d, Return false)
    end.
Proof.
  intros Hpool. unfold OrderRepository.update_status.
  rewrite get_connection_available by done.
  unfold bind, update_orders. by destruct (orders d !! oid).
Qed.

Lemma update_status_exhausted now oid st d :
  pool_available d = false ->
  OrderRepository.update_status now oid st d = (d, Raise TooManyConnectionsError).
Proof. intros. unfold OrderRepository.update_status. by apply get_connection_exhausted. Qed.

Lemma status_of_update_status now oid st d o :
  pool_available d = true ->
  status_of (OrderRepository.update_status now oid st d).1 o =
    if decide (oid = o) then (fun _ => st) <$> status_of d o else status_of d o.
Proof.
  intros Hpool. rewrite update_status_available by done.
  unfold status_of. destruct (orders d !! oid) as [x|] eqn:Hx; simpl.
  - case_decide as Ho.
    + subst o. rewrite lookup_insert_eq, Hx. done.
    + by rewrite lookup_insert_ne.
  - case_decide as Ho; [|done]. subst o. by rewrite Hx.
Qed.

(** C4, as stated, fails: COMPLETED to FAILED is not turned down; the
    order ends up FAILED. *)
Lemma completed_order_is_overwritten :
  status_of one_confirmed 7 = Some COMPLETED
  /\ exists d', OrderRepository.update_status 300 7 FAILED one_confirmed = (d', Return true)
                /\ status_of d' 7 = Some FAILED
                /\ d' <> one_confirmed.
Proof.
  split; [reflexivity|]. eexists. split; [vm_compute; reflexivity|].
  split; [reflexivity|]. intros H.
  assert (Hs : status_of one_confirmed 7 = Some FAILED) by (rewrite <- H; reflexivity).
  discriminate Hs.
Qed.

(** Once [update_status(order_id, new_status)] has gone through, the same
    call again, at any later time and whatever the pool then does, leaves
    every order with the status it had after the first call. *)
Lemma update_status_twice (now1 now2 : Z) (oid : N) (st : OrderStatus)
    (d : Database) (avail : bool) :
  pool_available d = true ->
  let d1 := (OrderRepository.update_status now1 oid st d).1 in
  let d2 := (OrderRepository.update_status now2 oid st (set_pool avail d1)).1 in
  forall o, status_of d2 o = status_of d1 o.
Proof.
  intros Hpool d1 d2 o.
  assert (Hd1 : forall k, status_of (set_pool avail d1) k = status_of d1 k) by done.
  destruct avail.
  - subst d2. rewrite status_of_update_status by done. rewrite Hd1.
    subst d1. rewrite status_of_update_status by done.
    case_decide; [|done]. by destruct (status_of d o).
  - subst d2. rewrite update_status_exhausted by done. apply Hd1.
Qed.

(** ** C6: polling the outbox *)

Global Instance created_le_total : Total created_le.
Proof. intros e1 e2. unfold created_le. lia. Qed.

Global Instance created_le_trans : Transitive created_le.
Proof. intros e1 e2 e3. unfold created_le. lia. Qed.

Lemma elem_of_pending_fifo tbl e :
  e ∈ pending_fifo tbl <-> is_pending e /\ exists k, tbl !! k = Some e.
Proof.
  unfold pending_fifo. rewrite merge_sort_Permutation, list_elem_of_filter, list_elem_of_fmap.
  split.
  - intros [Hp [[k v] [-> Hin]]]. apply elem_of_map_to_list in Hin. eauto.
  - intros [Hp [k Hk]]. split; [done|]. exists (k, e). split; [done|].
    by apply elem_of_map_to_list.
Qed.

Lemma pending_fifo_sorted tbl : StronglySorted created_le (pending_fifo tbl).
Proof. apply StronglySorted_merge_sort; apply _. Qed.

Lemma select_pending_split limit tbl :
  pending_fifo tbl =
    OutboxEventRepository.select_pending limit tbl ++ drop (Z.to_nat limit) (pending_fifo tbl).
Proof. unfold OutboxEventRepository.select_pending. symmetry. apply take_drop. Qed.

Lemma select_pending_elem limit tbl e :
  e ∈ OutboxEventRepository.select_pending limit tbl ->
  is_pending e /\ exists k, tbl !! k = Some e.
Proof.
  intros He. apply elem_of_pending_fifo.
  rewrite (select_pending_split limit). apply elem_of_app. by left.
Qed.

(** The comprehension returns only for no rows at all. *)
Lemma rows_to_events_outcome rows :
  OutboxEventRepository.rows_to_events rows
  = match rows with
    | [] => Return []
    | _ :: _ => Raise ValueError
    end.
Proof. by destruct rows. Qed.

Lemma get_pending_events_available limit d :
  pool_available d = true ->
  OutboxEventRepository.get_pending_events limit d =
    if limit <? 0 then (d, Raise NegativeLimitError)
    else (d, OutboxEventRepository.rows_to_events
               (OutboxEventRepository.select_pending limit (outbox_events d))).
Proof.
  intros Hpool. unfold OutboxEventRepository.get_pending_events.
  by rewrite get_connection_available by done.
Qed.

(** A poll never changes the table. *)
Lemma get_pending_events_unchanged limit d :
  (OutboxEventRepository.get_pending_events limit d).1 = d.
Proof.
  unfold OutboxEventRepository.get_pending_events, get_connection.
  destruct (pool_available d); [|done]. by destruct (limit <? 0).
Qed.

(** A poll that returns returns the empty list. *)
Lemma get_pending_events_returns_nil limit d d' evs :
  OutboxEventRepository.get_pending_events limit d = (d', Return evs) -> evs = [].
Proof.
  unfold OutboxEventRepository.get_pending_events, get_connection.
  destruct (pool_available d); [|done]. destruct (limit <? 0); [done|].
  rewrite rows_to_events_outcome.
  destruct (OutboxEventRepository.select_pending limit (outbox_events d)); [|done].
  by intros [= <- <-].
Qed.

(** Whatever the pool does, a poll never returns a row that is not
    pending in the table, and never changes the table. *)
Lemma get_pending_events_only_pending limit d d' evs e :
  OutboxEventRepository.get_pending_events limit d = (d', Return evs) ->
  e ∈ evs -> d' = d /\ is_pending e /\ exists k, outbox_events d !! k = Some e.
Proof.
  intros Hpoll He. rewrite (get_pending_events_returns_nil _ _ _ _ Hpoll) in He.
  by apply elem_of_nil in He.
Qed.

Lemma update_outbox_events_budget eid' set d eid :
  (forall e, OutboxEvent.status e <> "PENDING" ->
             OutboxEvent.max_retries e <= OutboxEvent.retry_count e ->
             OutboxEvent.status (set e) <> "PENDING"
             /\ OutboxEvent.max_retries (set e) <= OutboxEvent.retry_count (set e)) ->
  out_of_budget d eid ->
  out_of_budget (update_outbox_events eid' set d).1 eid.
Proof.
  intros Hset (e & He & Hs & Hc). unfold update_outbox_events.
  destruct (outbox_events d !! eid') as [x|] eqn:Hx; simpl; [|by exists e].
  destruct (decide (eid' = eid)) as [->|Hne].
  - assert (x = e) as -> by congruence.
    exists (set e). simpl. rewrite lookup_insert_eq. split; [done|]. by apply Hset.
  - exists e. simpl. by rewrite lookup_insert_ne.
Qed.

Lemma insert_outbox_event_budget ev d eid :
  out_of_budget d eid -> out_of_budget (insert_outbox_event ev d).1 eid.
Proof.
  intros (e & He & Hs & Hc). unfold insert_outbox_event.
  destruct (outbox_events d !! OutboxEvent.id ev) as [x|] eqn:Hx; simpl; [by exists e|].
  exists e. simpl. rewrite lookup_insert_ne; [done|]. intros Heq. congruence.
Qed.

Lemma out_of_budget_tables d d' eid :
  outbox_events d' = outbox_events d -> out_of_budget d eid -> out_of_budget d' eid.
Proof. intros Heq (e & He & H). exists e. by rewrite Heq. Qed.

(** ** The commit transaction, case by case *)

Lemma reserve_in_transaction_enough now pid q d p :
  products d !! pid = Some p -> q <= Product.stock_quantity p ->
  OrderRepository.reserve_in_transaction now pid q d =
    (with_products <[pid := Product.set_stock (Product.stock_quantity p - q) now p]> d, Return tt).
Proof.
  intros Hp Hq. unfold OrderRepository.reserve_in_transaction, bind.
  rewrite (update_products_hit _ _ _ _ p); [done..|]. by apply Z.leb_le.
Qed.

Lemma reserve_in_transaction_short now pid q d p :
  products d !! pid = Some p -> Product.stock_quantity p < q ->
  OrderRepository.reserve_in_transaction now pid q d = (d, Raise (insufficient q)).
Proof.
  intros Hp Hq. unfold OrderRepository.reserve_in_transaction, bind.
  rewrite (update_products_miss _ _ _ _ p); [done..|]. by apply Z.leb_gt.
Qed.

Lemma reserve_in_transaction_absent now pid q d :
  products d !! pid = None ->
  OrderRepository.reserve_in_transaction now pid q d = (d, Raise (insufficient q)).
Proof.
  intros Hp. unfold OrderRepository.reserve_in_transaction, bind.
  by rewrite update_products_absent.
Qed.

(** The reservation either raises and leaves the database as it was, or
    returns and has touched at most the [products] table. *)
Lemma reservation_cases now pid q d :
  (exists e, reservation now pid q d = (d, Raise e))
  \/ (exists d1, reservation now pid q d = (d1, Return tt)
                 /\ orders d1 = orders d
                 /\ outbox_events d1 = outbox_events d
                 /\ pool_available d1 = pool_available d).
Proof.
  destruct pid as [pid|], q as [q|]; simpl; try (right; by exists d).
  destruct (products d !! pid) as [p|] eqn:Hp.
  - destruct (Z_le_gt_dec q (Product.stock_quantity p)) as [Hq|Hq].
    + right. eexists. by rewrite (reserve_in_transaction_enough _ _ _ _ p).
    + left. eexists. apply (reserve_in_transaction_short _ _ _ _ p); [done|lia].
  - left. eexists. by apply reserve_in_transaction_absent.
Qed.

(** [create_with_outbox_event] with a connection at hand, read off the
    three steps: a step that raises gives the starting database back. *)
Lemma create_with_outbox_event_steps now o ev pid q d :
  pool_available d = true ->
  OrderRepository.create_with_outbox_event now o ev pid q d =
    match reservation now pid q d with
    | (d1, Return _) =>
      match orders d1 !! Order.id o with
      | Some _ => (d, Raise IntegrityConstraintViolationError)
      | None =>
        match outbox_events d1 !! OutboxEvent.id ev with
        | Some _ => (d, Raise IntegrityConstraintViolationError)
        | None => (with_outbox_events <[OutboxEvent.id ev := ev]>
                     (with_orders <[Order.id o := o]> d1), Return o)
        end
      end
    | (_, Raise e) => (d, Raise e)
    end.
Proof.
  intros Hpool. unfold OrderRepository.create_with_outbox_event.
  rewrite get_connection_available by done.
  change (match pid with
          | Some pid0 => match q with
                         | Some q0 => OrderRepository.reserve_in_transaction now pid0 q0
                         | None => ret tt
                         end
          | None => ret tt
          end) with (reservation now pid q).
  unfold bind, transaction, insert_order, insert_outbox_event, ret.
  destruct (reservation now pid q d) as [d1 [[]|e]]; [|done].
  destruct (orders d1 !! Order.id o); [done|]. simpl.
  by destruct (outbox_events d1 !! OutboxEvent.id ev).
Qed.

(** Either it raises and the database is the one it started from, or the
    reservation step returned and exactly the order row and the event row
    were added on top of it, under keys that were free. *)
Lemma create_with_outbox_event_cases now o ev pid q d :
  pool_available d = true ->
  (exists e, OrderRepository.create_with_outbox_event now o ev pid q d = (d, Raise e))
  \/ (exists d1,
        reservation now pid q d = (d1, Return tt)
        /\ orders d !! Order.id o = None
        /\ outbox_events d !! OutboxEvent.id ev = None
        /\ OrderRepository.create_with_outbox_event now o ev pid q d =
             (with_outbox_events <[OutboxEvent.id ev := ev]>
                (with_orders <[Order.id o := o]> d1), Return o)).
Proof.
  intros Hpool. rewrite create_with_outbox_event_steps by done.
  destruct (reservation_cases now pid q d) as [[e He]|(d1 & Hd1 & Ho & Hx & _)].
  - rewrite He. left. by exists e.
  - rewrite Hd1, Ho, Hx.
    destruct (orders d !! Order.id o) eqn:Hoid; [left; by eexists|].
    destruct (outbox_events d !! OutboxEvent.id ev) eqn:Heid; [left; by eexists|].
    right. by exists d1.
Qed.

Lemma create_with_outbox_event_exhausted now o ev pid q d :
  pool_available d = false ->
  OrderRepository.create_with_outbox_event now o ev pid q d = (d, Raise TooManyConnectionsError).
Proof. intros. unfold OrderRepository.create_with_outbox_event. by apply get_connection_exhausted. Qed.

(** ** C6: the poll, and events out of budget *)

Lemma run_op_out_of_budget op d eid :
  out_of_budget d eid -> out_of_budget (run_op op d) eid.
Proof.
  intros H. destruct op as [k|now k|ev|now o ev pid q|limit]; simpl.
  - unfold OutboxEventRepository.increment_retry, get_connection.
    destruct (pool_available d); [|done]. unfold bind.
    assert (Hu : out_of_budget
                   (update_outbox_events k OutboxEventRepository.increment_retry_row d).1 eid).
    { apply update_outbox_events_budget; [|done].
      intros x Hs Hc. unfold OutboxEventRepository.increment_retry_row. simpl.
      assert (Hge : (OutboxEvent.retry_count x >=? OutboxEvent.max_retries x) = true)
        by (apply Z.geb_le; lia).
      rewrite Hge.
      split; [done|lia]. }
    by destruct (update_outbox_events k OutboxEventRepository.increment_retry_row d)
      as [d' [n|e]].
  - unfold OutboxEventRepository.mark_as_processed, get_connection.
    destruct (pool_available d); [|done]. unfold bind.
    assert (Hu : out_of_budget
                   (update_outbox_events k
                      (OutboxEvent.set_processed "PROCESSED" (Some now)) d).1 eid).
    { apply update_outbox_events_budget; [|done]. intros x Hs Hc. simpl. done. }
    by destruct (update_outbox_events k (OutboxEvent.set_processed "PROCESSED" (Some now)) d)
      as [d' [n|e]].
  - unfold OutboxEventRepository.create, get_connection.
    by destruct (pool_available d).
  - destruct (pool_available d) eqn:Hpool.
    + destruct (create_with_outbox_event_cases now o ev pid q d Hpool)
        as [[e ->]|(d1 & Hd1 & Ho & Hx & ->)]; [done|]. simpl.
      destruct (reservation_cases now pid q d) as [[e He]|(d2 & Hd2 & _ & Hx2 & _)];
        [congruence|].
      assert (d2 = d1) as -> by congruence.
      destruct H as (e & He & Hs & Hc). exists e. simpl. rewrite Hx2.
      rewrite lookup_insert_ne; [done|]. intros Heq. congruence.
    + by rewrite create_with_outbox_event_exhausted.
  - unfold OutboxEventRepository.get_pending_events, get_connection.
    destruct (pool_available d); [|done]. by destruct (limit <? 0).
Qed.

Lemma run_ops_out_of_budget ops d eid :
  out_of_budget d eid -> out_of_budget (run_ops ops d) eid.
Proof.
  revert d. induction ops as [|op ops IH]; intros d H; [done|].
  simpl. apply IH. by apply run_op_out_of_budget.
Qed.

(** An increment that leaves the status FAILED leaves the event out of
    budget. *)
Lemma increment_retry_failed_out_of_budget eid d d' r e' :
  OutboxEventRepository.increment_retry eid d = (d', Return r) ->
  outbox_events d' !! eid = Some e' ->
  OutboxEvent.status e' = "FAILED" ->
  out_of_budget d' eid.
Proof.
  unfold OutboxEventRepository.increment_retry, get_connection.
  destruct (pool_available d); [|done]. unfold bind, update_outbox_events.
  destruct (outbox_events d !! eid) as [e|] eqn:He; simpl.
  - intros [= <- <-]. simpl. rewrite lookup_insert_eq. intros [= <-] Hs.
    eexists. simpl. rewrite lookup_insert_eq. split; [done|].
    destruct (increment_retry_row_spec e) as (Hc & Hf & Hp).
    apply Hf in Hs. split; [|simpl in *; lia].
    intros Hpend. apply Hp in Hpend. lia.
  - intros [= <- <-]. congruence.
Qed.

(** What the poll's query selects: rows of the table with status
    PENDING, in ascending order of [created_at], at most [limit] of them,
    and the oldest ones. *)
Lemma select_pending_fifo (limit : Z) (tbl : gmap N OutboxEvent.t) :
  0 <= limit ->
  let rows := OutboxEventRepository.select_pending limit tbl in
  Z.of_nat (length rows) <= limit
  /\ Forall is_pending rows
  /\ StronglySorted created_le rows
  /\ (forall e, e ∈ rows -> exists k, tbl !! k = Some e)
  /\ (forall k e', tbl !! k = Some e' -> is_pending e' ->
        e' ∈ rows \/ forall e, e ∈ rows -> created_le e e').
Proof.
  intros Hl rows. subst rows.
  pose proof (select_pending_split limit tbl) as Hsplit.
  pose proof (pending_fifo_sorted tbl) as Hsorted.
  rewrite Hsplit in Hsorted.
  repeat split.
  - unfold OutboxEventRepository.select_pending. rewrite length_take. lia.
  - apply Forall_forall. intros e He. by apply (select_pending_elem limit) in He as [? _].
  - by apply StronglySorted_app_1_l in Hsorted.
  - intros e He. by apply (select_pending_elem limit) in He as [_ ?].
  - intros k e' Hk Hp.
    assert (Hin : e' ∈ pending_fifo tbl).
    { apply elem_of_pending_fifo. eauto. }
    rewrite Hsplit in Hin. apply elem_of_app in Hin as [Hin|Hin]; [by left|].
    right. intros e He. by apply (StronglySorted_app_1_elem_of _ _ _ _ _ Hsorted).
Qed.

(** Once [increment_retry] has left an event FAILED, whatever the
    dispatcher and the request path do to the outbox afterwards, the
    poll's query does not select that event's row. *)
Lemma failed_event_is_not_selected eid d d1 r e1 ops limit e :
  OutboxEventRepository.increment_retry eid d = (d1, Return r) ->
  outbox_events d1 !! eid = Some e1 ->
  OutboxEvent.status e1 = "FAILED" ->
  e ∈ OutboxEventRepository.select_pending limit (outbox_events (run_ops ops d1)) ->
  outbox_events (run_ops ops d1) !! eid <> Some e.
Proof.
  intros Hinc He1 Hfailed He Hrow.
  pose proof (increment_retry_failed_out_of_budget _ _ _ _ _ Hinc He1 Hfailed) as Hb.
  apply (run_ops_out_of_budget ops) in Hb as (x & Hx & Hs & _).
  apply (select_pending_elem limit) in He as [Hp _].
  assert (x = e) as -> by congruence. done.
Qed.

Example select_pending_oldest_first :
  OutboxEventRepository.select_pending 2 (outbox_events outbox_three)
    = [spent_event; early_event]
  /\ OutboxEventRepository.select_pending 5
       (outbox_events (run_ops [OpIncrementRetry 43] outbox_three))
    = [early_event; late_event].
Proof. split; vm_compute; reflexivity. Qed.

(** C6. The poll cannot hand back a pending event. Two units ordered
    from a stock of five: the commit writes the [order.created] event, the
    poll's query selects exactly that row, and [get_pending_events(10)]
    raises on converting it (the stored JSON text is not a dict) instead of
    returning it; likewise on an outbox with three pending rows. Only on
    an outbox with nothing pending does the poll return, the empty
    list. *)
Theorem get_pending_events_raises_on_pending_row :
  exists d' saved,
    execute pretty drawn_once two_widgets None None shop = (d', Return saved)
    /\ OutboxEventRepository.select_pending 10 (outbox_events d')
       = [built_event pretty drawn_once two_widgets None None]
    /\ OutboxEvent.status (built_event pretty drawn_once two_widgets None None) = "PENDING"
    /\ OutboxEventRepository.get_pending_events 10 d' = (d', Raise ValueError)
    /\ OutboxEventRepository.get_pending_events 2 outbox_three
       = (outbox_three, Raise ValueError)
    /\ OutboxEventRepository.get_pending_events 10 shop = (shop, Return []).
Proof. eexists _, _. repeat split; vm_compute; reflexivity. Qed.

(** ** C1 and C10: the order commit *)

Section OrderCommit.
Variable isoformat : Z -> string.

Lemma execute_valid drawn request trace_id span_id d p :
  _validate_order_data request = Return tt ->
  pool_available d = true ->
  products d !! req_product_id request = Some p ->
  execute isoformat drawn request trace_id span_id d =
    match OrderRepository.create_with_outbox_event (db_now drawn)
            (built_order drawn request) (built_event isoformat drawn request trace_id span_id)
            (Some (req_product_id request)) (Some (req_quantity request)) d with
    | (d', Return saved) => (d', Return saved)
    | (d', Raise e) => (d', Raise e)
    end.
Proof.
  intros Hv Hpool Hp. unfold execute. rewrite Hv.
  unfold bind at 1. unfold product_get_by_id.
  rewrite get_connection_available by done. rewrite Hp.
  unfold bind, ret, built_event, built_order.
  by destruct (OrderRepository.create_with_outbox_event _ _ _ _ _ d) as [d' [saved|e]].
Qed.

Lemma execute_raises_early drawn request trace_id span_id d :
  _validate_order_data request <> Return tt
  \/ pool_available d = false
  \/ products d !! req_product_id request = None ->
  exists e, execute isoformat drawn request trace_id span_id d = (d, Raise e).
Proof.
  intros H. unfold execute.
  destruct (_validate_order_data request) as [[]|e] eqn:Hv; [|by eexists].
  unfold bind at 1. unfold product_get_by_id, get_connection.
  destruct (pool_available d) eqn:Hpool; [|by eexists].
  destruct (products d !! req_product_id request) eqn:Hp; [|by eexists].
  by destruct H as [?|[?|?]].
Qed.

(** C1. Every execution of the order commit either raises and leaves the
    database exactly as it was, or returns the order and has made
    exactly three changes: the stock of the product, which was at least
    the requested quantity, is decremented by that quantity; one order
    row, with status PENDING, is added under a key that was free; one
    outbox row, PENDING and with the order's id as [aggregate_id], is
    added under a key that was free. When the stock is below the request
    the execution raises [InsufficientStockError] and nothing changes; and
    in the repository the reservation is decided first: with too little
    stock that error is raised whatever order and event are handed in,
    even ones whose keys are taken. *)
Theorem order_commit_atomic (drawn : Drawn) (request : OrderCreateRequest)
    (trace_id span_id : option string) (d : Database) :
  ((exists e, execute isoformat drawn request trace_id span_id d = (d, Raise e))
   \/ (exists p,
         products d !! req_product_id request = Some p
         /\ req_quantity request <= Product.stock_quantity p
         /\ orders d !! order_uuid4 drawn = None
         /\ outbox_events d !! event_uuid4 drawn = None
         /\ Order.status (built_order drawn request) = PENDING
         /\ OutboxEvent.status (built_event isoformat drawn request trace_id span_id) = "PENDING"
         /\ OutboxEvent.aggregate_id (built_event isoformat drawn request trace_id span_id)
            = Order.id (built_order drawn request)
         /\ execute isoformat drawn request trace_id span_id d
            = (committed isoformat drawn request trace_id span_id p d,
               Return (built_order drawn request))
         /\ size (orders (committed isoformat drawn request trace_id span_id p d))
            = S (size (orders d))
         /\ size (outbox_events (committed isoformat drawn request trace_id span_id p d))
            = S (size (outbox_events d))
         /\ stock_of (committed isoformat drawn request trace_id span_id p d) (req_product_id request)
            = Some (Product.stock_quantity p - req_quantity request)))
  /\ (forall p,
        _validate_order_data request = Return tt ->
        pool_available d = true ->
        products d !! req_product_id request = Some p ->
        Product.stock_quantity p < req_quantity request ->
        execute isoformat drawn request trace_id span_id d
        = (d, Raise (insufficient (req_quantity request))))
  /\ (forall now order event pid q p,
        pool_available d = true ->
        products d !! pid = Some p ->
        Product.stock_quantity p < q ->
        OrderRepository.create_with_outbox_event now order event (Some pid) (Some q) d
        = (d, Raise (insufficient q))).
Proof.
  assert (Hshort : forall now order event pid q p,
            pool_available d = true -> products d !! pid = Some p ->
            Product.stock_quantity p < q ->
            OrderRepository.create_with_outbox_event now order event (Some pid) (Some q) d
            = (d, Raise (insufficient q))).
  { intros now order event pid q p Hpool Hp Hq.
    rewrite create_with_outbox_event_steps by done. simpl.
    by rewrite (reserve_in_transaction_short _ _ _ _ p). }
  split; [|split; [|exact Hshort]].
  - destruct (_validate_order_data request) as [[]|e0] eqn:Hv;
      [|left; apply execute_raises_early; left; by rewrite Hv].
    destruct (pool_available d) eqn:Hpool;
      [|left; apply execute_raises_early; right; by left].
    destruct (products d !! req_product_id request) as [p|] eqn:Hp;
      [|left; apply execute_raises_early; right; by right].
    rewrite (execute_valid _ _ _ _ _ p) by done.
    rewrite create_with_outbox_event_steps by done. simpl.
    destruct (Z_le_gt_dec (req_quantity request) (Product.stock_quantity p)) as [Hq|Hq].
    + rewrite (reserve_in_transaction_enough _ _ _ _ p) by done. simpl.
      destruct (orders d !! order_uuid4 drawn) eqn:Ho; [left; by eexists|].
      destruct (outbox_events d !! event_uuid4 drawn) eqn:He; [left; by eexists|].
      right. exists p. repeat split; try done.
      * simpl. by apply map_size_insert_None.
      * simpl. by apply map_size_insert_None.
      * unfold stock_of. simpl. by rewrite lookup_insert_eq.
    + rewrite (reserve_in_transaction_short _ _ _ _ p) by (done || lia).
      left. by eexists.
  - intros p Hv Hpool Hp Hq.
    rewrite (execute_valid _ _ _ _ _ p) by done.
    by rewrite (Hshort _ _ _ _ _ p).
Qed.
End OrderCommit.

Example two_widgets_commit :
  exists d' saved,
    execute pretty drawn_once two_widgets None None shop = (d', Return saved)
    /\ Order.status saved = PENDING
    /\ stock_of d' 1 = Some 3
    /\ status_of d' 7 = Some PENDING
    /\ (OutboxEvent.event_type <$> outbox_events d' !! 40%N) = Some "order.created"
    /\ (OutboxEvent.status <$> outbox_events d' !! 40%N) = Some "PENDING"
    /\ (OutboxEvent.aggregate_id <$> outbox_events d' !! 40%N) = Some 7%N
    /\ size (orders d') = 1%nat
    /\ size (outbox_events d') = 1%nat.
Proof. eexists _, _. repeat split; vm_compute; reflexivity. Qed.

Lemma order_commit_atomic_witness :
  _validate_order_data six_widgets = Return tt
  /\ pool_available shop = true
  /\ products shop !! 1%N = Some widget
  /\ Product.stock_quantity widget < 6
  /\ execute pretty drawn_once six_widgets None None shop = (shop, Raise (insufficient 6)).
Proof.
  do 4 (split; [reflexivity|]).
  destruct (order_commit_atomic pretty drawn_once six_widgets None None shop)
    as (_ & Hshort & _).
  apply (Hshort widget); reflexivity.
Defined.

(** C10. When [product_id] is [None] or [quantity] is [None], the
    reservation step is skipped: with a connection at hand and free keys,
    the order row and the outbox row are committed and the [products] table
    is not read or touched, whatever the stock is. With both arguments
    given, a commit that goes through has found enough stock and
    decremented it. *)
Theorem commit_without_reservation (now : Z) (order : Order.t) (event : OutboxEvent.t)
    (product_id : option N) (quantity : option Z) (d : Database) :
  pool_available d = true ->
  orders d !! Order.id order = None ->
  outbox_events d !! OutboxEvent.id event = None ->
  (product_id = None \/ quantity = None ->
     OrderRepository.create_with_outbox_event now order event product_id quantity d
     = (mkDatabase (products d)
                   (<[Order.id order := order]> (orders d))
                   (<[OutboxEvent.id event := event]> (outbox_events d))
                   (pool_available d),
        Return order))
  /\ (forall pid q d' saved,
        product_id = Some pid -> quantity = Some q ->
        OrderRepository.create_with_outbox_event now order event product_id quantity d
        = (d', Return saved) ->
        exists p, products d !! pid = Some p
                  /\ q <= Product.stock_quantity p
                  /\ stock_of d' pid = Some (Product.stock_quantity p - q)).
Proof.
  intros Hpool Ho He. split.
  - intros Hnone. rewrite create_with_outbox_event_steps by done.
    assert (Hres : reservation now product_id quantity d = (d, Return tt)).
    { destruct Hnone as [-> | ->]; [done|]. by destruct product_id. }
    by rewrite Hres, Ho, He.
  - intros pid q d' saved -> ->.
    rewrite create_with_outbox_event_steps by done. simpl.
    destruct (products d !! pid) as [p|] eqn:Hp.
    + destruct (Z_le_gt_dec q (Product.stock_quantity p)) as [Hq|Hq].
      * rewrite (reserve_in_transaction_enough _ _ _ _ p) by done. simpl.
        rewrite Ho, He. intros [= <- <-]. exists p. repeat split; try done.
        unfold stock_of. simpl. by rewrite lookup_insert_eq.
      * rewrite (reserve_in_transaction_short _ _ _ _ p) by (done || lia). done.
    + rewrite reserve_in_transaction_absent by done. done.
Qed.

Lemma commit_without_reservation_witness :
  stock_of shop 1 = Some 5
  /\ OrderRepository.create_with_outbox_event 1002 fifty_widgets fifty_widgets_event
       None (Some 50) shop
     = (mkDatabase (products shop)
                   (<[7%N := fifty_widgets]> (orders shop))
                   (<[40%N := fifty_widgets_event]> (outbox_events shop))
                   true,
        Return fifty_widgets).
Proof.
  split; [reflexivity|].
  destruct (commit_without_reservation 1002 fifty_widgets fifty_widgets_event
              None (Some 50) shop eq_refl eq_refl eq_refl) as [Hskip _].
  apply Hskip. by left.
Defined.

(** ** C7: what the consumer acknowledges *)

Example uuid_of_hex_str_uuid : uuid_of_hex (str_uuid 7) = Some 7%N.
Proof. vm_compute. reflexivity. Qed.

Section ConsumerDiscipline.
Context {S : Type} (order_repository : OrderRepositoryInterface S).
Variable uuid_of_str : string -> option N.
Variables (expected : string) (target : OrderStatus).

(** X23. Messages the handler drops: the body is not JSON; or it is an object
    without an order id under either key; or an object whose status is
    not the feed's; or an object whose order id is a string that is not a
    UUID. They are acknowledged and the store is not touched. When the
    update raises anything but a [ValueError], the message is
    rejected. *)
Lemma process_message_discipline (message : IncomingMessage) (s : S) :
  (message = Undecodable \/ message = Unparseable ->
     process_message order_repository uuid_of_str expected target message s = (s, Acked))
  /\ (forall items,
        message = Payload (JObj items) ->
        truthy (order_id_of items) = false ->
        process_message order_repository uuid_of_str expected target message s = (s, Acked))
  /\ (forall items,
        message = Payload (JObj items) ->
        truthy (order_id_of items) = true ->
        json_eq_str (dict_get "status" items) expected = false ->
        process_message order_repository uuid_of_str expected target message s = (s, Acked))
  /\ (forall items str,
        message = Payload (JObj items) ->
        order_id_of items = JStr str ->
        uuid_of_str str = None ->
        process_message order_repository uuid_of_str expected target message s = (s, Acked))
  /\ (forall items str u s' e,
        message = Payload (JObj items) ->
        order_id_of items = JStr str ->
        truthy (JStr str) = true ->
        json_eq_str (dict_get "status" items) expected = true ->
        uuid_of_str str = Some u ->
        repo_update_status u target s = (s', Raise e) ->
        e <> ValueError -> e <> JSONDecodeError ->
        process_message order_repository uuid_of_str expected target message s
        = (s', Rejected e))
  /\ (forall items str u s' r,
        message = Payload (JObj items) ->
        order_id_of items = JStr str ->
        truthy (JStr str) = true ->
        json_eq_str (dict_get "status" items) expected = true ->
        uuid_of_str str = Some u ->
        repo_update_status u target s = (s', Return r) ->
        process_message order_repository uuid_of_str expected target message s
        = (s', Acked)).
Proof.
  unfold process_message, try_block, event_get.
  split; [by intros [-> | ->]|].
  split; [intros items -> Hid; fold (order_id_of items); by rewrite Hid|].
  split; [intros items -> Hid Hst; fold (order_id_of items); by rewrite Hid, Hst|].
  split.
  { intros items str -> Hid Hparse. fold (order_id_of items).
    destruct (truthy (order_id_of items)); [|done]. simpl.
    destruct (json_eq_str (dict_get "status" items) expected); [|done]. simpl.
    rewrite Hid. simpl. by rewrite Hparse. }
  split.
  - intros items str u s' e -> Hid Htrue Hst Hparse Hup Hne1 Hne2.
    fold (order_id_of items). rewrite Hid, Htrue, Hst. simpl.
    rewrite Hparse, Hup. by destruct e.
  - intros items str u s' r -> Hid Htrue Hst Hparse Hup.
    fold (order_id_of items). rewrite Hid, Htrue, Hst. simpl.
    by rewrite Hparse, Hup.
Qed.
End ConsumerDiscipline.

(** C7. A message on the reserved feed whose order id is the number 5:
    [UUID(5)] raises [AttributeError], which the handler raises again, so
    the message is rejected instead of acknowledged; the same happens to a
    body that is JSON but not an object. Neither touches the orders. *)
Theorem non_string_order_id_is_rejected :
  process_reserved_message (PostgresOrderRepository 300) uuid_of_hex
    (Payload (JObj [("orderId", JInt 5); ("status", JStr "reserved")])) one_pending
  = (one_pending, Rejected AttributeError)
  /\ process_reserved_message (PostgresOrderRepository 300) uuid_of_hex
       (Payload (JArr [])) one_pending
     = (one_pending, Rejected AttributeError)
  /\ process_reserved_message (PostgresOrderRepository 300) uuid_of_hex
       (Payload (JObj [("orderId", JStr "not-a-uuid"); ("status", JStr "reserved")]))
       one_pending
     = (one_pending, Acked).
Proof. repeat split. Qed.

(** A well-formed message goes through: the order is COMPLETED and the
    message acknowledged; with the pool exhausted it is rejected and the
    order stays as it was. *)
Example reserved_message_completes_order :
  (exists d',
     process_reserved_message (PostgresOrderRepository 300) uuid_of_hex
       (Payload (JObj [("order_id", JStr (str_uuid 7)); ("status", JStr "reserved")]))
       one_pending = (d', Acked)
     /\ status_of d' 7 = Some COMPLETED)
  /\ process_reserved_message (PostgresOrderRepository 300) uuid_of_hex
       (Payload (JObj [("order_id", JStr (str_uuid 7)); ("status", JStr "reserved")]))
       (set_pool false one_pending)
     = (set_pool false one_pending, Rejected TooManyConnectionsError).
Proof. split; [eexists; split|]; vm_compute; reflexivity. Qed.

(** ** C8: what the publisher sends, and where *)

Section PublisherFacts.
Variable json_dumps : json -> string.

Lemma lookup_default_identity key table :
  (forall k v, (k, v) ∈ table -> v = k) ->
  lookup_default key key table = key.
Proof.
  induction table as [|[k v] rest IH]; intros Hid; [done|]. simpl.
  destruct (String.eqb k key) eqn:Hk.
  - apply String.eqb_eq in Hk. subst k. apply Hid. by left.
  - apply IH. intros k' v' Hin. apply Hid. by right.
Qed.

(** The routing key is the event type. *)
Lemma _get_routing_key_event_type event_type : _get_routing_key event_type = event_type.
Proof.
  apply lookup_default_identity. intros k v Hin.
  unfold routing_keys in Hin.
  repeat (apply elem_of_cons in Hin as [[= <- <-]|Hin]; [done|]).
  by apply elem_of_nil in Hin.
Qed.

(** X24. [publish_event] never raises. When it returns [True] the broker has
    received one more message: persistent, with the event id as message
    id, the three headers, the serialized payload as body, the event type
    as routing key, on the channel's default exchange. When it returns
    [False] the broker has received nothing. *)
Lemma publish_event_sends_one (event : OutboxEvent.t) (b : Broker) :
  exists b' r,
    publish_event json_dumps event b = (b', Return r)
    /\ (r = true ->
          received b' = received b ++
            [ mkPublished "" (OutboxEvent.event_type event)
                (mkMessage (json_dumps (OutboxEvent.event_data event)) PERSISTENT
                   (str_uuid (OutboxEvent.id event))
                   [ ("event_type", OutboxEvent.event_type event);
                     ("aggregate_id", str_uuid (OutboxEvent.aggregate_id event));
                     ("aggregate_type", OutboxEvent.aggregate_type event) ]) ])
    /\ (r = false -> received b' = received b).
Proof.
  unfold publish_event, publish_try, connect, default_exchange_publish, build_message.
  rewrite _get_routing_key_event_type.
  destruct (channel_open b) eqn:Hopen.
  - destruct (accepting b); eexists _, _; (split; [reflexivity|]); simpl; by split.
  - destruct (reachable b); simpl; [|eexists _, _; (split; [reflexivity|]); by split].
    destruct (accepting b); eexists _, _; (split; [reflexivity|]); simpl; by split.
Qed.
End PublisherFacts.

(** C8. Publishing an [order.created] event through a fresh connection:
    [connect] declares the durable topic exchange [amq.topic], and
    [publish_event] then sends the message, persistent and with the event id
    and the three headers, to the default exchange (the one with the empty
    name), not to [amq.topic]. *)
Theorem publish_event_uses_default_exchange (json_dumps : json -> string) :
  exists b' m,
    publish_event json_dumps early_event fresh_broker = (b', Return true)
    /\ declared b' = [("amq.topic", TOPIC, true)]
    /\ received b' = [mkPublished "" "order.created" m]
    /\ exchange (mkPublished "" "order.created" m) <> "amq.topic"
    /\ delivery_mode m = PERSISTENT
    /\ message_id m = str_uuid (OutboxEvent.id early_event)
    /\ headers m = [ ("event_type", "order.created");
                     ("aggregate_id", str_uuid (OutboxEvent.aggregate_id early_event));
                     ("aggregate_type", "Order") ].
Proof. eexists _, _. repeat split. simpl. discriminate. Qed.

(** ** C9: delivering the same feedback twice *)

Section FeedbackTwice.
Variable uuid_of_str : string -> option N.
Variables (expected : string) (target : OrderStatus).

Lemma process_message_store {S} (repo : OrderRepositoryInterface S) message (s : S) :
  (process_message repo uuid_of_str expected target message s).1 =
    match updated_order uuid_of_str expected message with
    | Some u => (repo_update_status u target s).1
    | None => s
    end.
Proof.
  unfold process_message, try_block, updated_order, event_get.
  destruct message as [| |[| | | | | |items]]; try done.
  fold (order_id_of items).
  destruct (truthy (order_id_of items)); [|done]. simpl.
  destruct (json_eq_str (dict_get "status" items) expected); [|done]. simpl.
  destruct (UUID_of_json uuid_of_str (order_id_of items)) as [u|e]; [|by destruct e].
  destruct (repo_update_status u target s) as [s' [r|e]]; [done|by destruct e].
Qed.

(** C9. Calling [update_status(order_id, new_status)] a second time with
    the same arguments, and likewise handling the same feedback message a
    second time, at any later time and whatever the pool then does, leaves
    every order with the status it had after the first time. *)
Theorem feedback_idempotent (now1 now2 : Z) (d : Database) (avail : bool) :
  pool_available d = true ->
  (forall oid st o,
     status_of (OrderRepository.update_status now2 oid st
                  (set_pool avail (OrderRepository.update_status now1 oid st d).1)).1 o
     = status_of (OrderRepository.update_status now1 oid st d).1 o)
  /\ (forall message o,
        status_of (process_message (PostgresOrderRepository now2) uuid_of_str
                     expected target message
                     (set_pool avail
                        (process_message (PostgresOrderRepository now1) uuid_of_str
                           expected target message d).1)).1 o
        = status_of (process_message (PostgresOrderRepository now1) uuid_of_str
                       expected target message d).1 o).
Proof.
  intros Hpool. split.
  - intros oid st o. by apply update_status_twice.
  - intros message o. rewrite !process_message_store.
    destruct (updated_order uuid_of_str expected message) as [u|]; [|done].
    simpl. by apply update_status_twice.
Qed.
End FeedbackTwice.

Lemma feedback_idempotent_witness :
  pool_available one_pending = true
  /\ status_of (OrderRepository.update_status 200 7 COMPLETED one_pending).1 7 = Some COMPLETED
  /\ status_of (OrderRepository.update_status 300 7 COMPLETED
                  (set_pool true (OrderRepository.update_status 200 7 COMPLETED one_pending).1)).1 7
     = status_of (OrderRepository.update_status 200 7 COMPLETED one_pending).1 7.
Proof.
  split; [reflexivity|]. split; [reflexivity|].
  destruct (feedback_idempotent uuid_of_hex "reserved" COMPLETED 200 300 one_pending true eq_refl)
    as [Hrepo _].
  apply Hrepo.
Defined.

(** ** C4: the transitions the feedback handlers request *)

Section StatusTransitions.
Variable uuid_of_str : string -> option N.

(** With a connection at hand, a message that names an order makes the
    handler call [update_status] on it and is acknowledged; any other
    message leaves the store as it is. *)
Lemma process_message_postgres now expected target message d :
  pool_available d = true ->
  match updated_order uuid_of_str expected message with
  | Some u =>
    process_message (PostgresOrderRepository now) uuid_of_str expected target message d
    = ((OrderRepository.update_status now u target d).1, Acked)
  | None =>
    (process_message (PostgresOrderRepository now) uuid_of_str expected target message d).1 = d
  end.
Proof.
  intros Hpool.
  pose proof (process_message_store uuid_of_str expected target
                (PostgresOrderRepository now) message d) as Hstore.
  destruct (updated_order uuid_of_str expected message) as [u|] eqn:Hu; [|done].
  revert Hu. unfold process_message, try_block, updated_order, event_get.
  destruct message as [| |[| | | | | |items]]; try done.
  fold (order_id_of items).
  destruct (truthy (order_id_of items)); [|done]. simpl.
  destruct (json_eq_str (dict_get "status" items) expected); [|done]. simpl.
  destruct (UUID_of_json uuid_of_str (order_id_of items)) as [u'|e]; [|done].
  intros [= ->].
  change (repo_update_status u target d) with (OrderRepository.update_status now u target d).
  rewrite update_status_available by done. by destruct (orders d !! u).
Qed.

(** C4, amended. With a connection at hand [update_status] returns and
    never raises; for an existing order it sets the requested status
    whatever the current one is (PENDING or not), touching only that
    order's status and [updated_at], and returns [True]; for a missing
    order it changes nothing and returns [False]. The two feedback handlers
    reach the orders through this call alone: on a message that names an
    order, [process_reserved_message] does what
    [update_status(order_id, COMPLETED)] does and [process_rejected_message]
    what [update_status(order_id, FAILED)] does, and the message is
    acknowledged; on any other message they leave the database as it
    is. *)
Theorem update_status_sets_any_status (now : Z) (oid : N) (st : OrderStatus) (d : Database) :
  pool_available d = true ->
  (exists d' r,
    OrderRepository.update_status now oid st d = (d', Return r)
    /\ products d' = products d
    /\ outbox_events d' = outbox_events d
    /\ (forall o, o <> oid -> orders d' !! o = orders d !! o)
    /\ match orders d !! oid with
       | Some o => r = true
                   /\ orders d' !! oid = Some (Order.set_status st now o)
                   /\ status_of d' oid = Some st
       | None => r = false /\ d' = d
       end)
  /\ (forall message,
        match updated_order uuid_of_str "reserved" message with
        | Some u =>
          process_reserved_message (PostgresOrderRepository now) uuid_of_str message d
          = ((OrderRepository.update_status now u COMPLETED d).1, Acked)
        | None =>
          (process_reserved_message (PostgresOrderRepository now) uuid_of_str message d).1 = d
        end)
  /\ (forall message,
        match updated_order uuid_of_str "rejected" message with
        | Some u =>
          process_rejected_message (PostgresOrderRepository now) uuid_of_str message d
          = ((OrderRepository.update_status now u FAILED d).1, Acked)
        | None =>
          (process_rejected_message (PostgresOrderRepository now) uuid_of_str message d).1 = d
        end).
Proof.
  intros Hpool. split; [|split].
  - rewrite update_status_available by done.
    destruct (orders d !! oid) as [o|] eqn:Ho.
    + eexists _, true. split; [reflexivity|]. simpl. repeat split; try done.
      * intros o' Hne. by rewrite lookup_insert_ne.
      * by rewrite lookup_insert_eq.
      * unfold status_of. simpl. by rewrite lookup_insert_eq.
    + eexists _, false. repeat split; done.
  - intros message. by apply process_message_postgres.
  - intros message. by apply process_message_postgres.
Qed.
End StatusTransitions.

Lemma update_status_sets_any_status_witness :
  status_of one_confirmed 7 = Some COMPLETED
  /\ (exists d' r,
        OrderRepository.update_status 300 7 FAILED one_confirmed = (d', Return r)
        /\ products d' = products one_confirmed
        /\ outbox_events d' = outbox_events one_confirmed
        /\ (forall o, o <> 7%N -> orders d' !! o = orders one_confirmed !! o)
        /\ match orders one_confirmed !! 7%N with
           | Some o => r = true
                       /\ orders d' !! 7%N = Some (Order.set_status FAILED 300 o)
                       /\ status_of d' 7 = Some FAILED
           | None => r = false /\ d' = one_confirmed
           end)
  /\ process_rejected_message (PostgresOrderRepository 300) uuid_of_hex
       (Payload (JObj [("orderId", JStr (str_uuid 7)); ("status", JStr "rejected")]))
       one_confirmed
     = ((OrderRepository.update_status 300 7 FAILED one_confirmed).1, Acked)
  /\ (process_reserved_message (PostgresOrderRepository 300) uuid_of_hex
        (Payload (JObj [("orderId", JStr (str_uuid 7)); ("status", JStr "rejected")]))
        one_confirmed).1
     = one_confirmed.
Proof.
  split; [reflexivity|].
  destruct (update_status_sets_any_status uuid_of_hex 300 7 FAILED one_confirmed eq_refl)
    as (Hrepo & Hreserved & Hrejected).
  split; [exact Hrepo|]. split.
  - exact (Hrejected (Payload (JObj [("orderId", JStr (str_uuid 7));
                                     ("status", JStr "rejected")]))).
  - exact (Hreserved (Payload (JObj [("orderId", JStr (str_uuid 7));
                                     ("status", JStr "rejected")]))).
Defined.

(** * Further properties *)

(** ** Acquiring a connection *)

(** X1. [DatabaseManager.get_connection] calls [pool.acquire()] at least
    once and at most three times. A [TooManyConnectionsError] at the first
    or the second attempt is followed by another attempt, after a sleep of
    0.1 s and then 0.2 s; anything else, and the third attempt whatever it
    does, ends the loop: the number of calls is one more than the number
    of leading refusals, capped at three. It ends with what the last call
    did: the connection, or that call's exception (after three refusals,
    [TooManyConnectionsError]). *)
Theorem acquire_connection_bounded (acquire : nat -> result unit) :
  let a := acquire_connection acquire in
  (1 <= acquire_calls a <= 3)%nat
  /\ slept a = take (acquire_calls a - 1) [float_tenth; float_double float_tenth]
  /\ (forall k, (k < acquire_calls a - 1)%nat -> acquire k = Raise TooManyConnectionsError)
  /\ ended a = Some (match acquire (acquire_calls a - 1)%nat with
                     | Return _ => Return tt
                     | Raise e => Raise e
                     end)
  /\ (forall k, (k < 3)%nat ->
        (forall j, (j < k)%nat -> acquire j = Raise TooManyConnectionsError) ->
        (k = 2%nat \/ acquire k <> Raise TooManyConnectionsError) ->
        acquire_calls a = S k)
  /\ ((forall j, (j < 3)%nat -> acquire j = Raise TooManyConnectionsError) ->
      a = mkAcquisition 3 [float_tenth; float_double float_tenth]
            (Some (Raise TooManyConnectionsError))).
Proof.
  unfold acquire_connection. simpl.
  destruct (acquire 0%nat) as [[]|e0] eqn:H0.
  { simpl. rewrite H0. repeat split; try lia.
    - intros k Hk Hall Hlast. destruct k as [|k]; [done|].
      specialize (Hall 0%nat ltac:(lia)). congruence.
    - intros Hall. specialize (Hall 0%nat ltac:(lia)). congruence. }
  assert (Hstop0 : e0 <> TooManyConnectionsError ->
            forall k, (k < 3)%nat ->
              (forall j, (j < k)%nat -> acquire j = Raise TooManyConnectionsError) ->
              (k = 2%nat \/ acquire k <> Raise TooManyConnectionsError) -> 1%nat = S k).
  { intros Hne k Hk Hall Hlast. destruct k as [|k]; [done|].
    specialize (Hall 0%nat ltac:(lia)). congruence. }
  assert (Hnot0 : e0 <> TooManyConnectionsError ->
            (forall j, (j < 3)%nat -> acquire j = Raise TooManyConnectionsError) -> False).
  { intros Hne Hall. specialize (Hall 0%nat ltac:(lia)). congruence. }
  destruct e0; simpl;
    try (rewrite H0; repeat split; try lia;
         [by apply Hstop0 | intros Hall; exfalso; by apply (Hnot0 ltac:(done))]).
  clear Hstop0 Hnot0.
  assert (Hone : forall k, (k < 1)%nat -> acquire k = Raise TooManyConnectionsError).
  { intros k Hk. destruct k; [done|lia]. }
  destruct (acquire 1%nat) as [[]|e1] eqn:H1.
  { simpl. rewrite H1. repeat split; try (lia || done).
    - intros k Hk Hall Hlast. destruct k as [|[|k]]; [|done|].
      + destruct Hlast as [?|Hlast]; [lia|]. by destruct Hlast.
      + specialize (Hall 1%nat ltac:(lia)). congruence.
    - intros Hall. specialize (Hall 1%nat ltac:(lia)). congruence. }
  assert (Hstop1 : e1 <> TooManyConnectionsError ->
            forall k, (k < 3)%nat ->
              (forall j, (j < k)%nat -> acquire j = Raise TooManyConnectionsError) ->
              (k = 2%nat \/ acquire k <> Raise TooManyConnectionsError) -> 2%nat = S k).
  { intros Hne k Hk Hall Hlast. destruct k as [|[|k]]; [|done|].
    - destruct Hlast as [?|Hlast]; [lia|]. by destruct Hlast.
    - specialize (Hall 1%nat ltac:(lia)). congruence. }
  assert (Hnot1 : e1 <> TooManyConnectionsError ->
            (forall j, (j < 3)%nat -> acquire j = Raise TooManyConnectionsError) -> False).
  { intros Hne Hall. specialize (Hall 1%nat ltac:(lia)). congruence. }
  destruct e1; simpl;
    try (rewrite H1; repeat split; try (lia || done);
         [by apply Hstop1 | intros Hall; exfalso; by apply (Hnot1 ltac:(done))]).
  clear Hstop1 Hnot1.
  assert (Htwo : forall k, (k < 2)%nat -> acquire k = Raise TooManyConnectionsError).
  { intros k Hk. destruct k as [|[|k]]; [done|done|lia]. }
  assert (Hstop2 : forall k, (k < 3)%nat ->
            (forall j, (j < k)%nat -> acquire j = Raise TooManyConnectionsError) ->
            (k = 2%nat \/ acquire k <> Raise TooManyConnectionsError) -> 3%nat = S k).
  { intros k Hk Hall Hlast. destruct k as [|[|[|k]]]; [| |done|lia].
    - destruct Hlast as [?|Hlast]; [lia|]. by destruct Hlast.
    - destruct Hlast as [?|Hlast]; [lia|]. by destruct Hlast. }
  destruct (acquire 2%nat) as [[]|e2] eqn:H2.
  { simpl. rewrite H2. repeat split; try (lia || done).
    intros Hall. specialize (Hall 2%nat ltac:(lia)). congruence. }
  destruct e2; simpl; rewrite H2; repeat split; try (lia || done);
    intros Hall; specialize (Hall 2%nat ltac:(lia)); congruence.
Qed.

(** ** Validation and the advisory product check *)

Section OrderRequests.
Variable isoformat : Z -> string.

(** X2. A request whose quantity is not in 1..1000, or whose amount is
    [<= 0] or [> 100000], is turned down with [InvalidOrderDataError] before
    the database is touched in any way, also when no connection could be
    had; the quantity is looked at first. A request that passes has a
    quantity in 1..1000. *)
Theorem invalid_request_never_reaches_database (drawn : Drawn)
    (request : OrderCreateRequest) (trace_id span_id : option string) (d : Database) :
  (req_quantity request <= 0 \/ 1000 < req_quantity request
   \/ SFleb (req_total_amount request) (S754_zero false) = true
   \/ SFltb float_100000 (req_total_amount request) = true ->
   exists msg, execute isoformat drawn request trace_id span_id d
               = (d, Raise (InvalidOrderDataError msg)))
  /\ (req_quantity request <= 0 ->
      execute isoformat drawn request trace_id span_id d
      = (d, Raise (InvalidOrderDataError "Quantity must be greater than 0")))
  /\ (_validate_order_data request = Return tt ->
      1 <= req_quantity request <= 1000
      /\ SFleb (req_total_amount request) (S754_zero false) = false
      /\ SFltb float_100000 (req_total_amount request) = false).
Proof.
  unfold execute, _validate_order_data.
  destruct (req_quantity request <=? 0) eqn:Hq0.
  { apply Z.leb_le in Hq0. repeat split; try done; try lia. intros _. by eexists. }
  apply Z.leb_gt in Hq0.
  destruct (req_quantity request >? 1000) eqn:Hq1.
  { rewrite Z.gtb_ltb in Hq1. apply Z.ltb_lt in Hq1.
    repeat split; try done; try lia. intros _. by eexists. }
  rewrite Z.gtb_ltb in Hq1. apply Z.ltb_ge in Hq1.
  destruct (SFleb (req_total_amount request) (S754_zero false)) eqn:Ha0.
  { repeat split; try done; try lia. intros _. by eexists. }
  destruct (SFltb float_100000 (req_total_amount request)) eqn:Ha1.
  { repeat split; try done; try lia. intros _. by eexists. }
  repeat split; try done; try lia.
Qed.

(** X3. For a request that passes validation, with a connection at hand:
    when the product is not in the table the execution raises
    [InvalidOrderDataError] naming the product and changes nothing; when it
    is there, the outcome is that of [create_with_outbox_event] on the order
    and event built from the request, so that a product which is there but
    sold out gives [InsufficientStockError] instead. *)
Theorem unknown_product_is_invalid_order (drawn : Drawn)
    (request : OrderCreateRequest) (trace_id span_id : option string) (d : Database) :
  _validate_order_data request = Return tt ->
  pool_available d = true ->
  match products d !! req_product_id request with
  | None =>
    execute isoformat drawn request trace_id span_id d
    = (d, Raise (InvalidOrderDataError
                   ("Product not found: " +:+ str_uuid (req_product_id request))))
  | Some p =>
    execute isoformat drawn request trace_id span_id d
    = OrderRepository.create_with_outbox_event (db_now drawn)
        (built_order drawn request) (built_event isoformat drawn request trace_id span_id)
        (Some (req_product_id request)) (Some (req_quantity request)) d
  end.
Proof.
  intros Hv Hpool.
  destruct (products d !! req_product_id request) as [p|] eqn:Hp.
  - rewrite (execute_valid _ _ _ _ _ _ p) by done.
    by destruct (OrderRepository.create_with_outbox_event _ _ _ _ _ d) as [d' [o|e]].
  - unfold execute. rewrite Hv. unfold bind, product_get_by_id.
    rewrite get_connection_available by done. by rewrite Hp.
Qed.
End OrderRequests.

(** ** Stock: the domain model, the repository, and sequences of calls *)

(** X4. The repository's conditional update does what the domain model's
    [Product.reserve_stock] does to the row: the domain method never raises,
    both report the same success, and on success the row the repository
    leaves in the table is the product the domain method produces. *)
Theorem reserve_stock_refines_domain (now : Z) (pid : N) (q : Z) (d : Database) (p : Product.t) :
  pool_available d = true ->
  products d !! pid = Some p ->
  exists p' ok,
    Product.reserve_stock now q p = Return (p', ok)
    /\ ProductRepository.reserve_stock now pid q d
       = ((if ok then with_products <[pid := p']> d else d), Return ok)
    /\ (ok = false -> p' = p).
Proof.
  intros Hpool Hp. unfold Product.reserve_stock, Product.update_stock.
  unfold ProductRepository.reserve_stock. rewrite get_connection_available by done.
  unfold bind.
  destruct (Product.stock_quantity p <? q) eqn:Hq.
  - apply Z.ltb_lt in Hq. exists p, false. split; [done|].
    rewrite (update_products_miss _ _ _ _ p); [done..|]. apply Z.leb_gt. lia.
  - apply Z.ltb_ge in Hq.
    assert (Hok : (Product.stock_quantity p + - q <? 0) = false) by (apply Z.ltb_ge; lia).
    rewrite Hok. eexists _, true. split; [reflexivity|].
    rewrite (update_products_hit _ _ _ _ p); [done..|]. by apply Z.leb_le.
Qed.

Lemma reserve_stock_refines_domain_witness :
  exists p' ok,
    Product.reserve_stock 9 2 widget = Return (p', ok)
    /\ ProductRepository.reserve_stock 9 1 2 shop
       = ((if ok then with_products <[1%N := p']> shop else shop), Return ok)
    /\ (ok = false -> p' = widget).
Proof. apply (reserve_stock_refines_domain 9 1 2 shop widget); reflexivity. Defined.

(** X5. In the domain model, releasing what was just reserved gives the
    quantity back: after a successful [reserve_stock(q)] on a product whose
    quantity is not negative, [release_stock(q)] does not raise and the
    quantity is the one before the reservation. *)
Theorem release_after_reserve (now1 now2 : Z) (q : Z) (p p1 : Product.t) :
  0 <= Product.stock_quantity p ->
  Product.reserve_stock now1 q p = Return (p1, true) ->
  Product.stock_quantity p1 = Product.stock_quantity p - q
  /\ exists p2, release_stock now2 q p1 = Return p2
                /\ Product.stock_quantity p2 = Product.stock_quantity p
                /\ Product.id p2 = Product.id p
                /\ Product.updated_at p2 = now2.
Proof.
  intros Hnn. unfold Product.reserve_stock, release_stock, Product.update_stock.
  destruct (Product.stock_quantity p <? q) eqn:Hq; [done|].
  destruct (Product.stock_quantity p + - q <? 0) eqn:Hneg; [done|].
  intros [= <-]. simpl. split; [lia|].
  assert (Hback : (Product.stock_quantity p + - q + q <? 0) = false) by (apply Z.ltb_ge; lia).
  rewrite Hback. eexists. split; [reflexivity|]. simpl. repeat split. lia.
Qed.

Lemma release_after_reserve_witness :
  Product.stock_quantity (Product.set_stock 3 9 widget) = Product.stock_quantity widget - 2
  /\ exists p2, release_stock 10 2 (Product.set_stock 3 9 widget) = Return p2
                /\ Product.stock_quantity p2 = Product.stock_quantity widget
                /\ Product.id p2 = Product.id widget
                /\ Product.updated_at p2 = 10.
Proof.
  apply (release_after_reserve 9 10 2 widget (Product.set_stock 3 9 widget));
    [vm_compute; discriminate | reflexivity].
Defined.

(** X6. [ProductRepository.update_stock] applies the addition to a product
    that is there whether or not it then reports failure, and reports
    [False] exactly when the new quantity is negative; for a product that is
    not there it changes nothing and still reports [True]. *)
Theorem update_stock_reports (now : Z) (pid : N) (q : Z) (d : Database) :
  pool_available d = true ->
  match products d !! pid with
  | Some p =>
    exists r,
      ProductRepository.update_stock now pid q d
      = (with_products <[pid := Product.set_stock (Product.stock_quantity p + q) now p]> d,
         Return r)
      /\ (r = false <-> Product.stock_quantity p + q < 0)
  | None => ProductRepository.update_stock now pid q d = (d, Return true)
  end.
Proof.
  intros Hpool. unfold ProductRepository.update_stock.
  rewrite get_connection_available by done. unfold bind.
  destruct (products d !! pid) as [p|] eqn:Hp.
  - rewrite (update_products_hit _ _ _ _ p) by done. simpl.
    destruct (Product.stock_quantity p + q <? 0) eqn:Hq.
    + apply Z.ltb_lt in Hq. by exists false.
    + apply Z.ltb_ge in Hq. exists true. split; [done|]. split; [done|lia].
  - by rewrite update_products_absent.
Qed.

Lemma update_stock_reports_witness :
  exists r,
    ProductRepository.update_stock 9 1 (-2) shop
    = (with_products <[1%N := Product.set_stock (Product.stock_quantity widget + -2) 9 widget]> shop,
       Return r)
    /\ (r = false <-> Product.stock_quantity widget + -2 < 0).
Proof. apply (update_stock_reports 9 1 (-2) shop). reflexivity. Defined.

(** X7. A product that is not in the table looks like one that is sold
    out: [reserve_stock] returns [False], and the commit raises
    [InsufficientStockError]; neither changes anything. *)
Theorem unknown_product_looks_sold_out (now : Z) (pid : N) (q : Z)
    (order : Order.t) (event : OutboxEvent.t) (d : Database) :
  pool_available d = true ->
  products d !! pid = None ->
  ProductRepository.reserve_stock now pid q d = (d, Return false)
  /\ OrderRepository.create_with_outbox_event now order event (Some pid) (Some q) d
     = (d, Raise (insufficient q)).
Proof.
  intros Hpool Hp. split.
  - unfold ProductRepository.reserve_stock. rewrite get_connection_available by done.
    unfold bind. by rewrite update_products_absent.
  - rewrite create_with_outbox_event_steps by done. simpl.
    by rewrite reserve_in_transaction_absent.
Qed.

Lemma unknown_product_looks_sold_out_witness :
  ProductRepository.reserve_stock 9 5 1 shop = (shop, Return false)
  /\ OrderRepository.create_with_outbox_event 9 fifty_widgets fifty_widgets_event
       (Some 5%N) (Some 1) shop
     = (shop, Raise (insufficient 1)).
Proof.
  apply (unknown_product_looks_sold_out 9 5 1 fifty_widgets fifty_widgets_event shop);
    reflexivity.
Defined.

(** ** Sequences of operations *)

Section ServiceRuns.
Variable isoformat : Z -> string.

(** The database after an execution of the order commit: the one before,
    or the committed one. *)
Lemma execute_cases drawn request trace_id span_id d :
  (execute isoformat drawn request trace_id span_id d).1 = d
  \/ exists p,
       products d !! req_product_id request = Some p
       /\ req_quantity request <= Product.stock_quantity p
       /\ orders d !! order_uuid4 drawn = None
       /\ outbox_events d !! event_uuid4 drawn = None
       /\ (execute isoformat drawn request trace_id span_id d).1
          = committed isoformat drawn request trace_id span_id p d.
Proof.
  destruct (_validate_order_data request) as [[]|e0] eqn:Hv; cycle 1.
  { left. destruct (execute_raises_early isoformat drawn request trace_id span_id d) as [e ->];
      [left; by rewrite Hv|done]. }
  destruct (pool_available d) eqn:Hpool; cycle 1.
  { left. destruct (execute_raises_early isoformat drawn request trace_id span_id d) as [e ->];
      [right; by left|done]. }
  destruct (products d !! req_product_id request) as [p|] eqn:Hp; cycle 1.
  { left. destruct (execute_raises_early isoformat drawn request trace_id span_id d) as [e ->];
      [right; by right|done]. }
  rewrite (execute_valid _ _ _ _ _ _ p) by done.
  rewrite create_with_outbox_event_steps by done. simpl.
  destruct (Z_le_gt_dec (req_quantity request) (Product.stock_quantity p)) as [Hq|Hq].
  - rewrite (reserve_in_transaction_enough _ _ _ _ p) by done. simpl.
    destruct (orders d !! order_uuid4 drawn) eqn:Ho; [by left|].
    destruct (outbox_events d !! event_uuid4 drawn) eqn:He; [by left|].
    right. by exists p.
  - rewrite (reserve_in_transaction_short _ _ _ _ p) by (done || lia). by left.
Qed.

Lemma update_status_tables now oid st d :
  let d' := (OrderRepository.update_status now oid st d).1 in
  products d' = products d /\ outbox_events d' = outbox_events d
  /\ (d' = d \/ exists o, orders d !! oid = Some o
                          /\ orders d' = <[oid := Order.set_status st now o]> (orders d)).
Proof.
  destruct (pool_available d) eqn:Hpool.
  - rewrite update_status_available by done.
    destruct (orders d !! oid) as [o|] eqn:Ho; simpl; [|by auto].
    repeat split; try done. right. by exists o.
  - rewrite update_status_exhausted by done. simpl. by auto.
Qed.

Lemma outbox_update_tables eid set d :
  let d' := (update_outbox_events eid set d).1 in
  products d' = products d /\ orders d' = orders d
  /\ (d' = d \/ exists e, outbox_events d !! eid = Some e
                          /\ outbox_events d' = <[eid := set e]> (outbox_events d)).
Proof.
  unfold update_outbox_events.
  destruct (outbox_events d !! eid) as [e|] eqn:He; simpl; [|by auto].
  repeat split; try done. right. by exists e.
Qed.

Lemma increment_retry_tables eid d :
  let d' := (OutboxEventRepository.increment_retry eid d).1 in
  products d' = products d /\ orders d' = orders d
  /\ (d' = d \/ exists e, outbox_events d !! eid = Some e
                          /\ outbox_events d'
                             = <[eid := OutboxEventRepository.increment_retry_row e]>
                                 (outbox_events d)).
Proof.
  unfold OutboxEventRepository.increment_retry, get_connection.
  destruct (pool_available d); [|simpl; by auto]. unfold bind.
  pose proof (outbox_update_tables eid OutboxEventRepository.increment_retry_row d) as H.
  by destruct (update_outbox_events eid OutboxEventRepository.increment_retry_row d)
    as [d' [n|e]].
Qed.

Lemma mark_as_processed_tables now eid d :
  let d' := (OutboxEventRepository.mark_as_processed now eid d).1 in
  products d' = products d /\ orders d' = orders d
  /\ (d' = d \/ exists e, outbox_events d !! eid = Some e
                          /\ outbox_events d'
                             = <[eid := OutboxEvent.set_processed "PROCESSED" (Some now) e]>
                                 (outbox_events d)).
Proof.
  unfold OutboxEventRepository.mark_as_processed, get_connection.
  destruct (pool_available d); [|simpl; by auto]. unfold bind.
  pose proof (outbox_update_tables eid
                (OutboxEvent.set_processed "PROCESSED" (Some now)) d) as H.
  by destruct (update_outbox_events eid (OutboxEvent.set_processed "PROCESSED" (Some now)) d)
    as [d' [n|e]].
Qed.

Lemma get_pending_events_state limit d :
  (OutboxEventRepository.get_pending_events limit d).1 = d.
Proof.
  unfold OutboxEventRepository.get_pending_events, get_connection.
  destruct (pool_available d); [|done]. by destruct (limit <? 0).
Qed.

Lemma reserve_stock_tables now pid q d :
  let d' := (ProductRepository.reserve_stock now pid q d).1 in
  orders d' = orders d /\ outbox_events d' = outbox_events d
  /\ (d' = d \/ exists p, products d !! pid = Some p /\ q <= Product.stock_quantity p
                          /\ products d'
                             = <[pid := Product.set_stock (Product.stock_quantity p - q) now p]>
                                 (products d)).
Proof.
  unfold ProductRepository.reserve_stock, get_connection.
  destruct (pool_available d); [|simpl; by auto]. unfold bind, update_products.
  destruct (products d !! pid) as [p|] eqn:Hp; [|simpl; by auto].
  destruct (q <=? Product.stock_quantity p) eqn:Hq; simpl; [|by auto].
  apply Z.leb_le in Hq. repeat split; try done. right. by exists p.
Qed.

Lemma run_service_op_stock_nonnegative op d :
  stock_nonnegative d -> stock_nonnegative (run_service_op isoformat op d).
Proof.
  intros Hnn.
  assert (Hsame : forall d', products d' = products d -> stock_nonnegative d').
  { intros d' Heq k p. rewrite Heq. apply Hnn. }
  assert (Hdec : forall d' pid p q now,
            products d !! pid = Some p -> q <= Product.stock_quantity p ->
            products d' = <[pid := Product.set_stock (Product.stock_quantity p - q) now p]>
                            (products d) ->
            stock_nonnegative d').
  { intros d' pid p q now Hp Hq Heq k x. rewrite Heq.
    destruct (decide (pid = k)) as [->|Hne].
    - rewrite lookup_insert_eq. intros [= <-]. simpl. lia.
    - rewrite lookup_insert_ne by done. apply Hnn. }
  destruct op as [drawn request tr sp|now oid st|eid|now eid|now pid q|limit]; simpl.
  - destruct (execute_cases drawn request tr sp d) as [->|(p & Hp & Hq & _ & _ & ->)]; [done|].
    by apply (Hdec _ (req_product_id request) p (req_quantity request) (db_now drawn)).
  - apply Hsame. apply update_status_tables.
  - apply Hsame. apply increment_retry_tables.
  - apply Hsame. apply mark_as_processed_tables.
  - destruct (reserve_stock_tables now pid q d) as (_ & _ & [->|(p & Hp & Hq & Heq)]); [done|].
    by apply (Hdec _ pid p q now).
  - by rewrite get_pending_events_state.
Qed.

(** X8. No sequence of order commits, direct reservations, status
    updates, retry increments, processed marks and polls makes a quantity
    negative: if no product has a negative quantity before, none has one
    after. *)
Theorem stock_stays_nonnegative (ops : list service_op) (d : Database) :
  stock_nonnegative d -> stock_nonnegative (run_service isoformat ops d).
Proof.
  revert d. induction ops as [|op ops IH]; intros d Hnn; [done|].
  simpl. apply IH. by apply run_service_op_stock_nonnegative.
Qed.
End ServiceRuns.

(** ** What the orders have taken from the stock *)

Lemma sum_Z_Permutation l1 l2 : l1 ≡ₚ l2 -> sum_Z l1 = sum_Z l2.
Proof.
  unfold sum_Z. induction 1 as [|x l1 l2 _ IH|x y l|l1 l2 l3 _ IH1 _ IH2]; simpl; lia.
Qed.

Lemma ordered_quantity_sum d pid :
  ordered_quantity d pid = sum_Z (quantity_for pid <$> (map_to_list (orders d)).*2).
Proof. done. Qed.

Lemma sum_quantity_insert_fresh (m : gmap N Order.t) k o pid :
  m !! k = None ->
  sum_Z (quantity_for pid <$> (map_to_list (<[k := o]> m)).*2)
  = quantity_for pid o + sum_Z (quantity_for pid <$> (map_to_list m).*2).
Proof.
  intros Hk.
  rewrite (sum_Z_Permutation _ (quantity_for pid <$> ((k, o) :: map_to_list m).*2)); [done|].
  by rewrite (map_to_list_insert m k o Hk).
Qed.

Lemma sum_quantity_replace (m : gmap N Order.t) k o o' pid :
  m !! k = Some o ->
  quantity_for pid o' = quantity_for pid o ->
  sum_Z (quantity_for pid <$> (map_to_list (<[k := o']> m)).*2)
  = sum_Z (quantity_for pid <$> (map_to_list m).*2).
Proof.
  intros Hk Hq.
  assert (Hm : sum_Z (quantity_for pid <$> (map_to_list m).*2)
               = quantity_for pid o + sum_Z (quantity_for pid <$> (map_to_list (delete k m)).*2)).
  { rewrite <- (insert_delete_id m k o Hk) at 1.
    apply sum_quantity_insert_fresh, lookup_delete_eq. }
  rewrite <- (insert_delete_eq m k o').
  rewrite sum_quantity_insert_fresh by apply lookup_delete_eq. by rewrite Hm, Hq.
Qed.

Section Accounting.
Variable isoformat : Z -> string.

Lemma run_service_op_conserves op d pid :
  is_direct_reservation op = false ->
  stock_or_zero (run_service_op isoformat op d) pid
    + ordered_quantity (run_service_op isoformat op d) pid
  = stock_or_zero d pid + ordered_quantity d pid.
Proof.
  intros Hop.
  assert (Hsame : forall d', products d' = products d -> orders d' = orders d ->
            stock_or_zero d' pid + ordered_quantity d' pid
            = stock_or_zero d pid + ordered_quantity d pid).
  { intros d' Hp Ho. unfold stock_or_zero, stock_of, ordered_quantity. by rewrite Hp, Ho. }
  destruct op as [drawn request tr sp|now oid st|eid|now eid|now pid' q|limit];
    simpl in *; try done.
  - destruct (execute_cases isoformat drawn request tr sp d)
      as [->|(p & Hp & Hq & Ho & _ & ->)]; [done|].
    rewrite !ordered_quantity_sum. unfold committed. simpl.
    rewrite sum_quantity_insert_fresh by done.
    unfold stock_or_zero, stock_of, quantity_for, built_order. simpl.
    destruct (decide (req_product_id request = pid)) as [Heq|Hne].
    + rewrite <- Heq, lookup_insert_eq, Hp. simpl. lia.
    + rewrite lookup_insert_ne by done. lia.
  - destruct (update_status_tables now oid st d) as (Hp & _ & [->|(o & Ho & Heq)]); [done|].
    unfold stock_or_zero, stock_of. rewrite Hp. f_equal.
    rewrite !ordered_quantity_sum, Heq. by apply (sum_quantity_replace _ _ o).
  - apply Hsame; apply increment_retry_tables.
  - apply Hsame; apply mark_as_processed_tables.
  - by rewrite get_pending_events_state.
Qed.

(** X9. Orders never take more than there was. Over any sequence of
    order commits, status updates, retry increments, processed marks and
    polls, the available quantity of a product plus the quantities of the
    orders for it stays the same; so, starting from quantities that are not
    negative, the orders added for a product take at most what was
    available. *)
Theorem orders_never_oversell (ops : list service_op) (d : Database) (pid : N) :
  Forall (fun op => is_direct_reservation op = false) ops ->
  stock_or_zero (run_service isoformat ops d) pid
    + ordered_quantity (run_service isoformat ops d) pid
  = stock_or_zero d pid + ordered_quantity d pid
  /\ (stock_nonnegative d ->
      ordered_quantity (run_service isoformat ops d) pid - ordered_quantity d pid
      <= stock_or_zero d pid).
Proof.
  intros Hops.
  assert (Hcons : forall d0,
            stock_or_zero (run_service isoformat ops d0) pid
              + ordered_quantity (run_service isoformat ops d0) pid
            = stock_or_zero d0 pid + ordered_quantity d0 pid).
  { induction Hops as [|op ops Hop _ IH]; intros d0; [done|].
    simpl. rewrite IH. by apply run_service_op_conserves. }
  assert (Hnn : forall d0, stock_nonnegative d0 ->
                           stock_nonnegative (run_service isoformat ops d0)).
  { clear Hcons. induction Hops as [|op ops _ _ IH]; intros d0 H0; [done|].
    simpl. apply IH. by apply run_service_op_stock_nonnegative. }
  split; [apply Hcons|]. intros H0.
  specialize (Hcons d). specialize (Hnn d H0).
  assert (0 <= stock_or_zero (run_service isoformat ops d) pid); [|lia].
  unfold stock_or_zero, stock_of.
  destruct (products (run_service isoformat ops d) !! pid) as [p|] eqn:Hp; simpl; [|done].
  by apply (Hnn pid).
Qed.

Lemma run_service_op_outbox_refers op d :
  outbox_refers_to_orders d -> outbox_refers_to_orders (run_service_op isoformat op d).
Proof.
  intros Href.
  assert (Hsame : forall d', orders d' = orders d -> outbox_events d' = outbox_events d ->
                             outbox_refers_to_orders d').
  { intros d' Ho He k e. rewrite Ho, He. apply Href. }
  assert (Hset : forall d' eid e0 (set : OutboxEvent.t -> OutboxEvent.t),
            (forall x, OutboxEvent.aggregate_id (set x) = OutboxEvent.aggregate_id x) ->
            orders d' = orders d -> outbox_events d !! eid = Some e0 ->
            outbox_events d' = <[eid := set e0]> (outbox_events d) ->
            outbox_refers_to_orders d').
  { intros d' eid e0 set Hagg Ho He0 He k e. rewrite Ho, He.
    destruct (decide (eid = k)) as [->|Hne].
    - rewrite lookup_insert_eq. intros [= <-]. rewrite Hagg. by apply (Href k).
    - rewrite lookup_insert_ne by done. apply Href. }
  destruct op as [drawn request tr sp|now oid st|eid|now eid|now pid q|limit]; simpl.
  - destruct (execute_cases isoformat drawn request tr sp d)
      as [->|(p & _ & _ & Ho & He & ->)]; [done|].
    intros k e. unfold committed. simpl.
    destruct (decide (event_uuid4 drawn = k)) as [->|Hne].
    + rewrite lookup_insert_eq. intros [= <-]. simpl. by rewrite lookup_insert_eq.
    + rewrite lookup_insert_ne by done. intros Hk.
      destruct (Href k e Hk) as [o Hagg].
      destruct (decide (order_uuid4 drawn = OutboxEvent.aggregate_id e)) as [Heq|Hne'].
      * rewrite <- Heq, lookup_insert_eq. by eexists.
      * rewrite lookup_insert_ne by done. by exists o.
  - destruct (update_status_tables now oid st d) as (_ & He & [->|(o & Ho & Heq)]); [done|].
    intros k e. rewrite He, Heq. intros Hk. destruct (Href k e Hk) as [x Hx].
    destruct (decide (oid = OutboxEvent.aggregate_id e)) as [<-|Hne].
    + rewrite lookup_insert_eq. by eexists.
    + rewrite lookup_insert_ne by done. by exists x.
  - destruct (increment_retry_tables eid d) as (_ & Ho & [->|(e0 & He0 & Heq)]); [done|].
    by apply (Hset _ eid e0 OutboxEventRepository.increment_retry_row).
  - destruct (mark_as_processed_tables now eid d) as (_ & Ho & [->|(e0 & He0 & Heq)]); [done|].
    by apply (Hset _ eid e0 (OutboxEvent.set_processed "PROCESSED" (Some now))).
  - apply Hsame; apply reserve_stock_tables.
  - by rewrite get_pending_events_state.
Qed.

(** X10. The outbox never gets ahead of the orders: if every outbox row
    names an order that is in the orders table, this is still so after any
    sequence of order commits, direct reservations, status updates, retry
    increments, processed marks and polls. *)
Theorem outbox_always_refers_to_orders (ops : list service_op) (d : Database) :
  outbox_refers_to_orders d -> outbox_refers_to_orders (run_service isoformat ops d).
Proof.
  revert d. induction ops as [|op ops IH]; intros d Href; [done|].
  simpl. apply IH. by apply run_service_op_outbox_refers.
Qed.
End Accounting.

Lemma shop_stock_nonnegative : stock_nonnegative shop.
Proof.
  intros k p Hk. unfold shop in Hk. simpl in Hk.
  apply lookup_singleton_Some in Hk as [_ <-]. vm_compute. discriminate.
Qed.

Lemma shop_outbox_refers : outbox_refers_to_orders shop.
Proof. intros k e Hk. unfold shop in Hk. simpl in Hk. by rewrite lookup_empty in Hk. Qed.

Lemma unknown_product_is_invalid_order_witness :
  execute pretty drawn_once (mkOrderCreateRequest 3 5 2 (req_total_amount two_widgets))
    None None shop
  = (shop, Raise (InvalidOrderDataError ("Product not found: " +:+ str_uuid 5))).
Proof.
  apply (unknown_product_is_invalid_order pretty drawn_once
           (mkOrderCreateRequest 3 5 2 (req_total_amount two_widgets)) None None shop);
    reflexivity.
Defined.

Lemma invalid_request_never_reaches_database_witness :
  execute pretty drawn_once (mkOrderCreateRequest 3 1 0 (req_total_amount two_widgets))
    None None (set_pool false shop)
  = (set_pool false shop, Raise (InvalidOrderDataError "Quantity must be greater than 0")).
Proof.
  destruct (invalid_request_never_reaches_database pretty drawn_once
              (mkOrderCreateRequest 3 1 0 (req_total_amount two_widgets))
              None None (set_pool false shop)) as (_ & Hq & _).
  apply Hq. simpl. lia.
Defined.

Lemma stock_stays_nonnegative_witness :
  stock_nonnegative
    (run_service pretty
       [SvcCreateOrder drawn_once two_widgets None None; SvcReserveStock 9 1 9;
        SvcReserveStock 10 1 3]
       shop)
  /\ stock_of (run_service pretty
                 [SvcCreateOrder drawn_once two_widgets None None; SvcReserveStock 9 1 9;
                  SvcReserveStock 10 1 3]
                 shop) 1 = Some 0.
Proof.
  split; [|reflexivity].
  apply (stock_stays_nonnegative pretty). exact shop_stock_nonnegative.
Defined.

Lemma orders_never_oversell_witness :
  stock_or_zero (run_service pretty
                   [SvcCreateOrder drawn_once two_widgets None None;
                    SvcCreateOrder (mkDrawn 8 2000 41 2001 2002) six_widgets None None;
                    SvcUpdateStatus 3000 7 COMPLETED]
                   shop) 1
    + ordered_quantity (run_service pretty
                          [SvcCreateOrder drawn_once two_widgets None None;
                           SvcCreateOrder (mkDrawn 8 2000 41 2001 2002) six_widgets None None;
                           SvcUpdateStatus 3000 7 COMPLETED]
                          shop) 1
  = stock_or_zero shop 1 + ordered_quantity shop 1
  /\ stock_or_zero shop 1 = 5.
Proof.
  split; [|reflexivity].
  apply (orders_never_oversell pretty
           [SvcCreateOrder drawn_once two_widgets None None;
            SvcCreateOrder (mkDrawn 8 2000 41 2001 2002) six_widgets None None;
            SvcUpdateStatus 3000 7 COMPLETED] shop 1).
  repeat constructor.
Defined.

Lemma outbox_always_refers_to_orders_witness :
  outbox_refers_to_orders
    (run_service pretty
       [SvcCreateOrder drawn_once two_widgets None None; SvcIncrementRetry 40;
        SvcUpdateStatus 3000 7 FAILED]
       shop).
Proof. apply (outbox_always_refers_to_orders pretty). exact shop_outbox_refers. Defined.

(** ** The retry counter and the processed mark *)

(** The rows a run of increments leaves. *)
Lemma run_ops_increment_retry k eid d e :
  pool_available d = true ->
  outbox_events d !! eid = Some e ->
  pool_available (run_ops (replicate k (OpIncrementRetry eid)) d) = true
  /\ outbox_events (run_ops (replicate k (OpIncrementRetry eid)) d) !! eid
     = Some (Nat.iter k OutboxEventRepository.increment_retry_row e).
Proof.
  revert d e. induction k as [|k IH]; intros d e Hpool He; [done|].
  rewrite Nat.iter_succ_r. simpl.
  assert (Hstep : (OutboxEventRepository.increment_retry eid d).1
                  = with_outbox_events
                      <[eid := OutboxEventRepository.increment_retry_row e]> d).
  { unfold OutboxEventRepository.increment_retry.
    rewrite get_connection_available by done.
    unfold bind, update_outbox_events. by rewrite He. }
  rewrite Hstep. apply IH; [done|]. simpl. by rewrite lookup_insert_eq.
Qed.

Lemma iter_increment_retry_row k e :
  let e' := Nat.iter k OutboxEventRepository.increment_retry_row e in
  OutboxEvent.retry_count e' = OutboxEvent.retry_count e + Z.of_nat k
  /\ OutboxEvent.max_retries e' = OutboxEvent.max_retries e.
Proof.
  induction k as [|k [IHc IHm]]; [simpl; split; [lia|done]|].
  rewrite Nat.iter_succ. simpl. split; [|done]. simpl in IHc. lia.
Qed.

(** X11. After [n >= 1] calls of [increment_retry] on an event, its
    [retry_count] has grown by [n], and its status is FAILED if the count now
    exceeds [max_retries] and PENDING otherwise, whatever the status was
    before. An event created with count 0 and [max_retries = 3] is thus
    still PENDING after its third failure and FAILED from the fourth on. *)
Theorem increment_retry_budget (n : nat) (eid : N) (d : Database) (e : OutboxEvent.t) :
  pool_available d = true ->
  outbox_events d !! eid = Some e ->
  exists e',
    outbox_events (run_ops (replicate (S n) (OpIncrementRetry eid)) d) !! eid = Some e'
    /\ OutboxEvent.retry_count e' = OutboxEvent.retry_count e + Z.of_nat (S n)
    /\ OutboxEvent.max_retries e' = OutboxEvent.max_retries e
    /\ OutboxEvent.status e'
       = (if OutboxEvent.max_retries e <? OutboxEvent.retry_count e'
          then "FAILED" else "PENDING")
    /\ (OutboxEvent.retry_count e = 0 -> OutboxEvent.max_retries e = 3 ->
        (OutboxEvent.status e' = "FAILED" <-> (4 <= S n)%nat)).
Proof.
  intros Hpool He.
  destruct (run_ops_increment_retry (S n) eid d e Hpool He) as [_ Hrow].
  eexists. split; [exact Hrow|].
  destruct (iter_increment_retry_row (S n) e) as [Hc Hm].
  split; [exact Hc|]. split; [exact Hm|].
  rewrite Hc.
  destruct (iter_increment_retry_row n e) as [Hc' Hm'].
  assert (Hst : OutboxEvent.status (Nat.iter (S n) OutboxEventRepository.increment_retry_row e)
                = (if OutboxEvent.max_retries e <? OutboxEvent.retry_count e + Z.of_nat (S n)
                   then "FAILED" else "PENDING")).
  { rewrite Nat.iter_succ. unfold OutboxEventRepository.increment_retry_row at 1.
    cbn [OutboxEvent.status OutboxEvent.set_retry]. rewrite Hc', Hm'.
    destruct (OutboxEvent.retry_count e + Z.of_nat n >=? OutboxEvent.max_retries e) eqn:Hge;
      destruct (OutboxEvent.max_retries e <? OutboxEvent.retry_count e + Z.of_nat (S n)) eqn:Hlt;
      try done; rewrite Z.geb_leb in Hge;
      [apply Z.leb_le in Hge; apply Z.ltb_ge in Hlt|apply Z.leb_gt in Hge; apply Z.ltb_lt in Hlt];
      lia. }
  split; [exact Hst|].
  intros H0 H3. rewrite Hst, H0, H3.
  destruct (3 <? 0 + Z.of_nat (S n)) eqn:Hlt.
  - apply Z.ltb_lt in Hlt. split; [lia|done].
  - apply Z.ltb_ge in Hlt. split; [done|lia].
Qed.

Lemma increment_retry_budget_witness :
  exists e',
    outbox_events (run_ops (replicate 4 (OpIncrementRetry 41)) outbox_three) !! 41%N = Some e'
    /\ OutboxEvent.retry_count e' = OutboxEvent.retry_count late_event + Z.of_nat 4
    /\ OutboxEvent.max_retries e' = OutboxEvent.max_retries late_event
    /\ OutboxEvent.status e'
       = (if OutboxEvent.max_retries late_event <? OutboxEvent.retry_count e'
          then "FAILED" else "PENDING")
    /\ (OutboxEvent.retry_count late_event = 0 -> OutboxEvent.max_retries late_event = 3 ->
        (OutboxEvent.status e' = "FAILED" <-> (4 <= 4)%nat)).
Proof. apply (increment_retry_budget 3 41 outbox_three late_event); reflexivity. Defined.

Lemma select_pending_all limit tbl :
  Z.of_nat (length (pending_fifo tbl)) <= limit ->
  OutboxEventRepository.select_pending limit tbl = pending_fifo tbl.
Proof.
  intros Hlen. unfold OutboxEventRepository.select_pending.
  apply take_ge. fold (pending_fifo tbl). lia.
Qed.

Lemma pending_fifo_Permutation tbl :
  pending_fifo tbl ≡ₚ filter is_pending (map_to_list tbl).*2.
Proof. unfold pending_fifo. apply merge_sort_Permutation. Qed.

(** A poll that has a pending row to select, and a limit of at least
    one, raises on converting the first row. *)
Lemma poll_raises_on_pending_row limit d k e :
  pool_available d = true ->
  1 <= limit ->
  outbox_events d !! k = Some e ->
  is_pending e ->
  OutboxEventRepository.get_pending_events limit d = (d, Raise ValueError).
Proof.
  intros Hpool Hl Hk Hp. rewrite get_pending_events_available by done.
  assert (Hneg : (limit <? 0) = false) by (apply Z.ltb_ge; lia). rewrite Hneg.
  rewrite rows_to_events_outcome.
  assert (Hin : e ∈ pending_fifo (outbox_events d)) by (apply elem_of_pending_fifo; eauto).
  unfold OutboxEventRepository.select_pending. fold (pending_fifo (outbox_events d)).
  destruct (pending_fifo (outbox_events d)) as [|x rest]; [by apply elem_of_nil in Hin|].
  destruct (Z.to_nat limit) as [|n] eqn:Hn; [lia|]. done.
Qed.

(** X12. [increment_retry] on an event whose count is still below
    [max_retries] makes it PENDING whatever its status was, also PROCESSED
    or FAILED, leaving [processed_at] and every other row as they are; the
    poll's query then selects the row again whenever the limit leaves room
    for every pending row, and a poll with a limit of at least one raises
    on converting what it selected. *)
Theorem increment_retry_revives (eid : N) (d : Database) (e : OutboxEvent.t) :
  pool_available d = true ->
  outbox_events d !! eid = Some e ->
  OutboxEvent.retry_count e < OutboxEvent.max_retries e ->
  exists d' e',
    OutboxEventRepository.increment_retry eid d = (d', Return true)
    /\ outbox_events d' !! eid = Some e'
    /\ OutboxEvent.status e' = "PENDING"
    /\ OutboxEvent.retry_count e' = OutboxEvent.retry_count e + 1
    /\ OutboxEvent.processed_at e' = OutboxEvent.processed_at e
    /\ (forall k, k <> eid -> outbox_events d' !! k = outbox_events d !! k)
    /\ products d' = products d /\ orders d' = orders d
    /\ (forall limit,
          Z.of_nat (length (pending_fifo (outbox_events d'))) <= limit ->
          e' ∈ OutboxEventRepository.select_pending limit (outbox_events d'))
    /\ (forall limit,
          1 <= limit ->
          OutboxEventRepository.get_pending_events limit d' = (d', Raise ValueError)).
Proof.
  intros Hpool He Hlt.
  unfold OutboxEventRepository.increment_retry.
  rewrite get_connection_available by done. unfold bind, update_outbox_events. rewrite He.
  simpl. eexists _, _. split; [reflexivity|]. simpl. rewrite lookup_insert_eq.
  assert (Hst : OutboxEvent.status (OutboxEventRepository.increment_retry_row e) = "PENDING").
  { unfold OutboxEventRepository.increment_retry_row. simpl.
    assert (Hge : (OutboxEvent.retry_count e >=? OutboxEvent.max_retries e) = false).
    { rewrite Z.geb_leb. apply Z.leb_gt. lia. }
    by rewrite Hge. }
  repeat split; try done.
  - intros k Hne. by rewrite lookup_insert_ne.
  - intros limit Hlen. rewrite select_pending_all by done.
    apply elem_of_pending_fifo. split; [done|]. exists eid. by rewrite lookup_insert_eq.
  - intros limit Hl.
    apply (poll_raises_on_pending_row limit _ eid
             (OutboxEventRepository.increment_retry_row e)); try done.
    simpl. by rewrite lookup_insert_eq.
Qed.

(** X13. The domain model's [OutboxEvent.increment_retry], called
    [n >= 1] times: the count grows by [n]; the status is FAILED once the
    count has reached [max_retries] and is otherwise left as it was, so that
    a FAILED event stays FAILED and a PROCESSED one is never made PENDING
    again. *)
Theorem domain_increment_retry_sticks (n : nat) (e : OutboxEvent.t) :
  let e' := Nat.iter (S n) OutboxEvent.increment_retry e in
  OutboxEvent.retry_count e' = OutboxEvent.retry_count e + Z.of_nat (S n)
  /\ OutboxEvent.max_retries e' = OutboxEvent.max_retries e
  /\ (OutboxEvent.max_retries e <= OutboxEvent.retry_count e' -> OutboxEvent.status e' = "FAILED")
  /\ (OutboxEvent.retry_count e' < OutboxEvent.max_retries e ->
      OutboxEvent.status e' = OutboxEvent.status e)
  /\ (OutboxEvent.status e = "FAILED" -> OutboxEvent.status e' = "FAILED")
  /\ (OutboxEvent.status e <> "PENDING" -> OutboxEvent.status e' <> "PENDING").
Proof.
  assert (Hstep : forall x,
            OutboxEvent.retry_count (OutboxEvent.increment_retry x) = OutboxEvent.retry_count x + 1
            /\ OutboxEvent.max_retries (OutboxEvent.increment_retry x) = OutboxEvent.max_retries x
            /\ OutboxEvent.status (OutboxEvent.increment_retry x)
               = (if OutboxEvent.retry_count x + 1 >=? OutboxEvent.max_retries x
                  then "FAILED" else OutboxEvent.status x)).
  { intros x. unfold OutboxEvent.increment_retry. simpl.
    by destruct (OutboxEvent.retry_count x + 1 >=? OutboxEvent.max_retries x). }
  induction n as [|n IH].
  - simpl. destruct (Hstep e) as (Hc & Hm & Hs). rewrite Hc, Hm, Hs.
    destruct (OutboxEvent.retry_count e + 1 >=? OutboxEvent.max_retries e) eqn:Hge;
      rewrite Z.geb_leb in Hge; [apply Z.leb_le in Hge|apply Z.leb_gt in Hge];
      repeat split; try done; try lia.
  - destruct IH as (IHc & IHm & IHf & IHk & IHs & IHp).
    rewrite Nat.iter_succ.
    destruct (Hstep (Nat.iter (S n) OutboxEvent.increment_retry e)) as (Hc & Hm & Hs).
    cbv zeta. rewrite Hc, Hm, Hs, IHc, IHm.
    destruct (OutboxEvent.retry_count e + Z.of_nat (S n) + 1 >=? OutboxEvent.max_retries e)
      eqn:Hge; rewrite Z.geb_leb in Hge; [apply Z.leb_le in Hge|apply Z.leb_gt in Hge].
    + repeat split; try done; try lia.
    + repeat split; try lia; try done.
      * intros Hlt. apply IHk. lia.
Qed.

(** X14. [mark_as_processed] on an event that is there sets PROCESSED and
    [processed_at], touches nothing else, and returns [True]; no poll
    returns the row afterwards; a second call returns [True] again. On an
    event that is not there it changes nothing and returns [False]. *)
Theorem mark_as_processed_hides (now : Z) (eid : N) (d : Database) :
  pool_available d = true ->
  match outbox_events d !! eid with
  | Some e =>
    exists d',
      OutboxEventRepository.mark_as_processed now eid d = (d', Return true)
      /\ outbox_events d' !! eid = Some (OutboxEvent.set_processed "PROCESSED" (Some now) e)
      /\ (forall k, k <> eid -> outbox_events d' !! k = outbox_events d !! k)
      /\ products d' = products d /\ orders d' = orders d
      /\ (forall limit d'' evs,
            OutboxEventRepository.get_pending_events limit d' = (d'', Return evs) ->
            OutboxEvent.set_processed "PROCESSED" (Some now) e ∉ evs)
      /\ (forall now2, (OutboxEventRepository.mark_as_processed now2 eid d').2 = Return true)
  | None => OutboxEventRepository.mark_as_processed now eid d = (d, Return false)
  end.
Proof.
  intros Hpool. unfold OutboxEventRepository.mark_as_processed.
  rewrite get_connection_available by done. unfold bind, update_outbox_events.
  destruct (outbox_events d !! eid) as [e|] eqn:He; [|done].
  simpl. eexists. split; [reflexivity|]. simpl. rewrite lookup_insert_eq.
  repeat split; try done.
  - intros k Hne. by rewrite lookup_insert_ne.
  - intros limit d'' evs Hpoll Hin.
    by destruct (get_pending_events_only_pending _ _ _ _ _ Hpoll Hin) as (_ & Hp & _).
  - intros now2. unfold get_connection. simpl. rewrite Hpool. simpl.
    by rewrite lookup_insert_eq.
Qed.

Lemma mark_as_processed_hides_witness :
  exists d',
    OutboxEventRepository.mark_as_processed 900 42 outbox_three = (d', Return true)
    /\ outbox_events d' !! 42%N
       = Some (OutboxEvent.set_processed "PROCESSED" (Some 900) early_event)
    /\ (forall k, k <> 42%N -> outbox_events d' !! k = outbox_events outbox_three !! k)
    /\ products d' = products outbox_three /\ orders d' = orders outbox_three
    /\ (forall limit d'' evs,
          OutboxEventRepository.get_pending_events limit d' = (d'', Return evs) ->
          OutboxEvent.set_processed "PROCESSED" (Some 900) early_event ∉ evs)
    /\ (forall now2, (OutboxEventRepository.mark_as_processed now2 42 d').2 = Return true).
Proof. apply (mark_as_processed_hides 900 42 outbox_three). reflexivity. Defined.

Lemma increment_retry_revives_witness :
  OutboxEvent.status delivered_event = "PROCESSED"
  /\ exists d' e',
       OutboxEventRepository.increment_retry 44 outbox_delivered = (d', Return true)
       /\ outbox_events d' !! 44%N = Some e'
       /\ OutboxEvent.status e' = "PENDING"
       /\ OutboxEvent.retry_count e' = OutboxEvent.retry_count delivered_event + 1
       /\ OutboxEvent.processed_at e' = OutboxEvent.processed_at delivered_event
       /\ (forall k, k <> 44%N -> outbox_events d' !! k = outbox_events outbox_delivered !! k)
       /\ products d' = products outbox_delivered /\ orders d' = orders outbox_delivered
       /\ (forall limit,
             Z.of_nat (length (pending_fifo (outbox_events d'))) <= limit ->
             e' ∈ OutboxEventRepository.select_pending limit (outbox_events d'))
       /\ (forall limit,
             1 <= limit ->
             OutboxEventRepository.get_pending_events limit d' = (d', Raise ValueError)).
Proof.
  split; [reflexivity|].
  apply (increment_retry_revives 44 outbox_delivered delivered_event); reflexivity.
Defined.

(** ** Polling and committing *)

(** X15. With a connection at hand and a limit that is not negative,
    [get_pending_events] returns only when its query selects no row, that
    is when the limit is 0 or no row of the table is PENDING, and then it
    returns the empty list; whenever a row is selected it raises on
    converting it. Either way the database is as before. *)
Theorem get_pending_events_empty_or_raises (limit : Z) (d : Database) :
  pool_available d = true ->
  0 <= limit ->
  OutboxEventRepository.get_pending_events limit d
  = (d, if decide (limit = 0 \/ filter is_pending (map_to_list (outbox_events d)).*2 = [])
        then Return [] else Raise ValueError).
Proof.
  intros Hpool Hl. rewrite get_pending_events_available by done.
  assert (Hneg : (limit <? 0) = false) by (apply Z.ltb_ge; lia). rewrite Hneg.
  rewrite rows_to_events_outcome. f_equal.
  unfold OutboxEventRepository.select_pending. fold (pending_fifo (outbox_events d)).
  pose proof (pending_fifo_Permutation (outbox_events d)) as Hperm.
  case_decide as Hnone.
  - destruct Hnone as [-> | Hnil]; [done|].
    rewrite Hnil in Hperm. apply Permutation_nil_r in Hperm. by rewrite Hperm, take_nil.
  - destruct (pending_fifo (outbox_events d)) as [|x rest] eqn:Hfifo.
    + exfalso. apply Hnone. right. symmetry in Hperm. by apply Permutation_nil_r in Hperm.
    + destruct (Z.to_nat limit) as [|n] eqn:Hn; [|done].
      exfalso. apply Hnone. left. lia.
Qed.

Lemma get_pending_events_empty_or_raises_witness :
  OutboxEventRepository.get_pending_events 1 outbox_three
  = (outbox_three,
     if decide (1 = 0 \/ filter is_pending (map_to_list (outbox_events outbox_three)).*2 = [])
     then Return [] else Raise ValueError).
Proof. apply (get_pending_events_empty_or_raises 1 outbox_three); [reflexivity|lia]. Defined.

Section CommitThenRead.
Variable isoformat : Z -> string.

Lemma execute_return_inv drawn request trace_id span_id d d' saved :
  execute isoformat drawn request trace_id span_id d = (d', Return saved) ->
  pool_available d = true
  /\ saved = built_order drawn request
  /\ exists p, products d !! req_product_id request = Some p
               /\ d' = committed isoformat drawn request trace_id span_id p d.
Proof.
  intros Hex.
  destruct (_validate_order_data request) as [[]|e0] eqn:Hv; cycle 1.
  { destruct (execute_raises_early isoformat drawn request trace_id span_id d) as [e He];
      [left; by rewrite Hv|congruence]. }
  destruct (pool_available d) eqn:Hpool; cycle 1.
  { destruct (execute_raises_early isoformat drawn request trace_id span_id d) as [e He];
      [right; by left|congruence]. }
  destruct (products d !! req_product_id request) as [p|] eqn:Hp; cycle 1.
  { destruct (execute_raises_early isoformat drawn request trace_id span_id d) as [e He];
      [right; by right|congruence]. }
  rewrite (execute_valid _ _ _ _ _ _ p) in Hex by done.
  rewrite create_with_outbox_event_steps in Hex by done. simpl in Hex.
  destruct (Z_le_gt_dec (req_quantity request) (Product.stock_quantity p)) as [Hq|Hq].
  - rewrite (reserve_in_transaction_enough _ _ _ _ p) in Hex by done. simpl in Hex.
    destruct (orders d !! order_uuid4 drawn) eqn:Ho; [done|].
    destruct (outbox_events d !! event_uuid4 drawn) eqn:He; [done|].
    injection Hex as <- <-. split; [done|]. split; [done|]. by exists p.
  - rewrite (reserve_in_transaction_short _ _ _ _ p) in Hex by (done || lia). done.
Qed.

(** X16. What an order commit wrote: right after [execute] has returned
    an order, [get_by_id] on its id returns that order, still PENDING; the
    outbox holds, under the event's id, a PENDING [order.created] row whose
    [aggregate_id] is the order's id; and a poll with a limit of at least
    one raises on converting a selected row instead of returning it. *)
Theorem committed_order_is_visible (drawn : Drawn) (request : OrderCreateRequest)
    (trace_id span_id : option string) (d d' : Database) (saved : Order.t) :
  execute isoformat drawn request trace_id span_id d = (d', Return saved) ->
  OrderRepository.get_by_id (Order.id saved) d' = (d', Return (Some saved))
  /\ Order.status saved = PENDING
  /\ (exists event,
        outbox_events d' !! event_uuid4 drawn = Some event
        /\ OutboxEvent.id event = event_uuid4 drawn
        /\ OutboxEvent.aggregate_id event = Order.id saved
        /\ OutboxEvent.event_type event = "order.created"
        /\ OutboxEvent.status event = "PENDING")
  /\ forall limit,
       1 <= limit ->
       OutboxEventRepository.get_pending_events limit d' = (d', Raise ValueError).
Proof.
  intros Hex. destruct (execute_return_inv _ _ _ _ _ _ _ Hex) as (Hpool & -> & p & Hp & ->).
  split; [|split; [done|split]].
  - unfold OrderRepository.get_by_id. rewrite get_connection_available by done.
    simpl. by rewrite lookup_insert_eq.
  - exists (built_event isoformat drawn request trace_id span_id).
    simpl. by rewrite lookup_insert_eq.
  - intros limit Hl.
    apply (poll_raises_on_pending_row limit _ (event_uuid4 drawn)
             (built_event isoformat drawn request trace_id span_id)); try done.
    simpl. by rewrite lookup_insert_eq.
Qed.
End CommitThenRead.

Lemma committed_order_is_visible_witness :
  exists d' saved,
    execute pretty drawn_once two_widgets None None shop = (d', Return saved)
    /\ OrderRepository.get_by_id (Order.id saved) d' = (d', Return (Some saved))
    /\ Order.status saved = PENDING
    /\ (exists event,
          outbox_events d' !! event_uuid4 drawn_once = Some event
          /\ OutboxEvent.id event = event_uuid4 drawn_once
          /\ OutboxEvent.aggregate_id event = Order.id saved
          /\ OutboxEvent.event_type event = "order.created"
          /\ OutboxEvent.status event = "PENDING")
    /\ OutboxEventRepository.get_pending_events 10 d' = (d', Raise ValueError).
Proof.
  eexists _, _. split; [vm_compute; reflexivity|].
  destruct (committed_order_is_visible pretty drawn_once two_widgets None None shop
              _ _ eq_refl) as (Hget & Hst & Hevent & Hpoll).
  split; [exact Hget|]. split; [exact Hst|]. split; [exact Hevent|]. apply Hpoll. lia.
Defined.

(** ** Creating, updating and listing orders *)

(** X17. [OrderRepository.create] followed by [get_by_id] gives the order
    back: under a free id the row is added, nothing else changes, and
    [get_by_id] returns it; under an id that is taken the insert raises the
    integrity error and the table is as before. [get_by_id] on an id that
    is not there returns [None]. *)
Theorem create_then_get_by_id (order : Order.t) (d : Database) :
  pool_available d = true ->
  match orders d !! Order.id order with
  | None =>
    OrderRepository.get_by_id (Order.id order) d = (d, Return None)
    /\ exists d',
         OrderQueries.create order d = (d', Return order)
         /\ OrderRepository.get_by_id (Order.id order) d' = (d', Return (Some order))
         /\ (forall k, k <> Order.id order ->
               OrderRepository.get_by_id k d' = (d', Return (orders d !! k)))
         /\ products d' = products d /\ outbox_events d' = outbox_events d
         /\ size (orders d') = S (size (orders d))
  | Some old =>
    OrderQueries.create order d = (d, Raise IntegrityConstraintViolationError)
    /\ OrderRepository.get_by_id (Order.id order) d = (d, Return (Some old))
  end.
Proof.
  intros Hpool. unfold OrderQueries.create, OrderRepository.get_by_id.
  rewrite !get_connection_available by done.
  unfold bind, insert_order, ret, OrderRepository._row_to_order.
  destruct (orders d !! Order.id order) as [old|] eqn:Ho; [done|].
  split; [done|]. eexists. split; [reflexivity|].
  unfold get_connection. simpl. rewrite Hpool, lookup_insert_eq.
  repeat split; try done.
  - intros k Hne. rewrite lookup_insert_ne by done. by destruct (orders d !! k).
  - by apply map_size_insert_None.
Qed.

Lemma create_then_get_by_id_witness :
  OrderRepository.get_by_id 7 shop = (shop, Return None)
  /\ exists d',
       OrderQueries.create fifty_widgets shop = (d', Return fifty_widgets)
       /\ OrderRepository.get_by_id 7 d' = (d', Return (Some fifty_widgets))
       /\ (forall k, k <> 7%N -> OrderRepository.get_by_id k d' = (d', Return (orders shop !! k)))
       /\ products d' = products shop /\ outbox_events d' = outbox_events shop
       /\ size (orders d') = S (size (orders shop)).
Proof. apply (create_then_get_by_id fifty_widgets shop). reflexivity. Defined.

(** X18. [OrderRepository.update] on an order that is there replaces
    every column by the argument's except [created_at], which stays as it
    was stored, and returns the stored row, which [get_by_id] then returns;
    other orders are untouched. On an id that is not there it raises
    ([AttributeError], out of the row conversion) and changes nothing. *)
Theorem update_keeps_created_at (order : Order.t) (d : Database) :
  pool_available d = true ->
  match orders d !! Order.id order with
  | Some old =>
    exists d' row,
      OrderQueries.update order d = (d', Return row)
      /\ Order.created_at row = Order.created_at old
      /\ Order.id row = Order.id order
      /\ Order.customer_id row = Order.customer_id order
      /\ Order.product_id row = Order.product_id order
      /\ Order.quantity row = Order.quantity order
      /\ Order.total_amount row = Order.total_amount order
      /\ Order.status row = Order.status order
      /\ Order.updated_at row = Order.updated_at order
      /\ OrderRepository.get_by_id (Order.id order) d' = (d', Return (Some row))
      /\ (forall k, k <> Order.id order -> orders d' !! k = orders d !! k)
      /\ size (orders d') = size (orders d)
  | None => OrderQueries.update order d = (d, Raise AttributeError)
  end.
Proof.
  intros Hpool. unfold OrderQueries.update, OrderRepository.get_by_id.
  rewrite get_connection_available by done.
  destruct (orders d !! Order.id order) as [old|] eqn:Ho; [|done].
  eexists _, _. split; [reflexivity|]. unfold get_connection. simpl.
  rewrite Hpool, lookup_insert_eq. repeat split; try done.
  - intros k Hne. by rewrite lookup_insert_ne.
  - rewrite <- (insert_delete_eq (orders d)).
    rewrite map_size_insert_None by apply lookup_delete_eq.
    rewrite <- (insert_delete_id (orders d) (Order.id order) old Ho) at 2.
    by rewrite map_size_insert_None by apply lookup_delete_eq.
Qed.

Lemma update_keeps_created_at_witness :
  exists d' row,
    OrderQueries.update fifty_widgets one_pending = (d', Return row)
    /\ Order.created_at row = Order.created_at pending_order
    /\ Order.id row = Order.id fifty_widgets
    /\ Order.customer_id row = Order.customer_id fifty_widgets
    /\ Order.product_id row = Order.product_id fifty_widgets
    /\ Order.quantity row = Order.quantity fifty_widgets
    /\ Order.total_amount row = Order.total_amount fifty_widgets
    /\ Order.status row = Order.status fifty_widgets
    /\ Order.updated_at row = Order.updated_at fifty_widgets
    /\ OrderRepository.get_by_id (Order.id fifty_widgets) d' = (d', Return (Some row))
    /\ (forall k, k <> Order.id fifty_widgets -> orders d' !! k = orders one_pending !! k)
    /\ size (orders d') = size (orders one_pending).
Proof. apply (update_keeps_created_at fifty_widgets one_pending). reflexivity. Defined.

Global Instance created_ge_total : Total created_ge.
Proof. intros o1 o2. unfold created_ge. lia. Qed.

Global Instance created_ge_trans : Transitive created_ge.
Proof. intros o1 o2 o3. unfold created_ge. lia. Qed.

Lemma page_sublist limit offset (rows : list Order.t) :
  exists before after, rows = before ++ OrderQueries.page limit offset rows ++ after.
Proof.
  unfold OrderQueries.page.
  exists (take (Z.to_nat offset) rows),
         (drop (Z.to_nat limit) (drop (Z.to_nat offset) rows)).
  by rewrite take_drop, take_drop.
Qed.

(** X19. [list_by_customer] with a limit and an offset that are not
    negative returns, without changing anything, orders of the table that
    belong to that customer, newest first, at most [limit] of them; with
    offset 0 and a limit that leaves room, all of the customer's orders,
    each once. A negative limit or offset is refused. *)
Theorem list_by_customer_newest_first (customer_id : N) (limit offset : Z) (d : Database) :
  pool_available d = true ->
  if (limit <? 0) || (offset <? 0)
  then OrderQueries.list_by_customer customer_id limit offset d = (d, Raise NegativeLimitError)
  else exists os,
    OrderQueries.list_by_customer customer_id limit offset d = (d, Return os)
    /\ Z.of_nat (length os) <= limit
    /\ (forall o, o ∈ os ->
          Order.customer_id o = customer_id /\ exists k, orders d !! k = Some o)
    /\ StronglySorted created_ge os
    /\ (offset = 0 ->
        Z.of_nat (length (filter (of_customer customer_id) (map_to_list (orders d)).*2)) <= limit ->
        os ≡ₚ filter (of_customer customer_id) (map_to_list (orders d)).*2).
Proof.
  intros Hpool. unfold OrderQueries.list_by_customer.
  rewrite get_connection_available by done.
  destruct ((limit <? 0) || (offset <? 0)) eqn:Hneg; [done|].
  apply orb_false_iff in Hneg as [Hl Ho]. apply Z.ltb_ge in Hl, Ho.
  set (mine := filter (of_customer customer_id) (map_to_list (orders d)).*2).
  exists (OrderQueries.page limit offset (OrderQueries.newest_first mine)). split.
  { do 2 f_equal. apply list_fmap_id. }
  assert (Hsorted : StronglySorted created_ge (OrderQueries.newest_first mine)).
  { apply StronglySorted_merge_sort; apply _. }
  destruct (page_sublist limit offset (OrderQueries.newest_first mine))
    as (before & after & Hsplit).
  repeat split.
  - unfold OrderQueries.page. rewrite length_take. lia.
  - assert (Hin : o ∈ OrderQueries.newest_first mine).
    { rewrite Hsplit. rewrite !elem_of_app. by right; left. }
    unfold OrderQueries.newest_first in Hin. rewrite merge_sort_Permutation in Hin.
    apply list_elem_of_filter in Hin as [Hc _]. exact Hc.
  - assert (Hin : o ∈ OrderQueries.newest_first mine).
    { rewrite Hsplit. rewrite !elem_of_app. by right; left. }
    unfold OrderQueries.newest_first in Hin. rewrite merge_sort_Permutation in Hin.
    apply list_elem_of_filter in Hin as [_ Hin].
    apply list_elem_of_fmap in Hin as [[k v] [-> Hin]].
    apply elem_of_map_to_list in Hin. by exists k.
  - rewrite Hsplit in Hsorted.
    apply StronglySorted_app_1_r in Hsorted. by apply StronglySorted_app_1_l in Hsorted.
  - intros -> Hroom. unfold OrderQueries.page. simpl.
    rewrite take_ge.
    + unfold OrderQueries.newest_first. apply merge_sort_Permutation.
    + unfold OrderQueries.newest_first. rewrite merge_sort_Permutation.
      change (Z.to_nat 0) with 0%nat. rewrite drop_0. lia.
Qed.

Lemma list_by_customer_newest_first_witness :
  OrderQueries.list_by_customer 3 5 0 three_orders
  = (three_orders, Return [second_confirmed; pending_order])
  /\ exists os,
       OrderQueries.list_by_customer 3 1 1 three_orders = (three_orders, Return os)
       /\ Z.of_nat (length os) <= 1
       /\ (forall o, o ∈ os ->
             Order.customer_id o = 3%N /\ exists k, orders three_orders !! k = Some o)
       /\ StronglySorted created_ge os
       /\ (1 = 0 ->
           Z.of_nat (length (filter (of_customer 3) (map_to_list (orders three_orders)).*2)) <= 1 ->
           os ≡ₚ filter (of_customer 3) (map_to_list (orders three_orders)).*2).
Proof.
  split; [vm_compute; reflexivity|].
  apply (list_by_customer_newest_first 3 1 1 three_orders). reflexivity.
Defined.

(** ** The consumer and the database *)

Section ConsumerOnPostgres.
Variable uuid_of_str : string -> option N.
Variables (expected : string) (target : OrderStatus).

(** X20. A well-formed message, one whose order id (under either key) is
    a non-empty string that reads as a UUID and whose status is the feed's,
    is acknowledged whenever a connection can be had: if the order is
    there, its status becomes the feed's target status, whatever it was,
    and nothing else changes; if there is no such order, nothing changes
    and the message is acknowledged all the same. *)
Theorem feedback_sets_status (now : Z) (items : list (string * json)) (str : string)
    (u : N) (d : Database) :
  pool_available d = true ->
  order_id_of items = JStr str ->
  truthy (JStr str) = true ->
  json_eq_str (dict_get "status" items) expected = true ->
  uuid_of_str str = Some u ->
  process_message (PostgresOrderRepository now) uuid_of_str expected target
    (Payload (JObj items)) d
  = match orders d !! u with
    | Some o => (with_orders <[u := Order.set_status target now o]> d, Acked)
    | None => (d, Acked)
    end.
Proof.
  intros Hpool Hid Htrue Hst Hparse.
  unfold process_message, try_block, event_get. fold (order_id_of items).
  rewrite Hid, Htrue, Hst. simpl. rewrite Hparse.
  change (repo_update_status u target d) with (OrderRepository.update_status now u target d).
  rewrite update_status_available by done. by destruct (orders d !! u).
Qed.

(** X21. Whatever the message, whatever the pool does and however the
    message is settled, the handler leaves the products and the outbox
    alone and changes at most one order: the one the message names, and of
    it only the status, which becomes the feed's target, and
    [updated_at]. *)
Theorem process_message_frame (now : Z) (message : IncomingMessage) (d : Database) :
  let d' := (process_message (PostgresOrderRepository now) uuid_of_str expected target
               message d).1 in
  products d' = products d
  /\ outbox_events d' = outbox_events d
  /\ pool_available d' = pool_available d
  /\ (d' = d \/ exists u o, updated_order uuid_of_str expected message = Some u
                            /\ orders d !! u = Some o
                            /\ orders d' = <[u := Order.set_status target now o]> (orders d)).
Proof.
  cbv zeta. rewrite process_message_store.
  destruct (updated_order uuid_of_str expected message) as [u|]; [|by auto].
  change (repo_update_status u target d) with (OrderRepository.update_status now u target d).
  destruct (pool_available d) eqn:Hpool.
  - rewrite update_status_available by done.
    destruct (orders d !! u) as [o|] eqn:Ho; simpl; [|by auto].
    repeat split; auto. right. by exists u, o.
  - rewrite update_status_exhausted by done. simpl. by auto.
Qed.
End ConsumerOnPostgres.

Lemma feedback_sets_status_witness :
  process_message (PostgresOrderRepository 300) uuid_of_hex "rejected" FAILED
    (Payload (JObj [("orderId", JNull); ("order_id", JStr (str_uuid 7));
                    ("status", JStr "rejected")])) one_confirmed
  = (with_orders <[7%N := Order.set_status FAILED 300 confirmed_order]> one_confirmed, Acked).
Proof.
  apply (feedback_sets_status uuid_of_hex "rejected" FAILED 300
           [("orderId", JNull); ("order_id", JStr (str_uuid 7)); ("status", JStr "rejected")]
           (str_uuid 7) 7 one_confirmed); vm_compute; reflexivity.
Defined.

(** ** The publisher's connection *)

(** X22. [publish_event] connects only when its channel is not open: with
    an open channel nothing is declared; with a closed channel and a broker
    that cannot be reached it returns [False] and nothing changes; with a
    closed channel and a broker that can be reached the channel is open
    afterwards and [amq.topic] has been declared as a durable topic
    exchange, also when the publish itself then fails. It returns [True]
    exactly when it had or got a channel and the broker took the
    message. *)
Theorem publish_event_connects_when_closed (json_dumps : json -> string)
    (event : OutboxEvent.t) (b : Broker) :
  exists b' r,
    publish_event json_dumps event b = (b', Return r)
    /\ (r = true <-> (channel_open b || reachable b) && accepting b = true)
    /\ (channel_open b = true -> declared b' = declared b /\ channel_open b' = true)
    /\ (channel_open b = false -> reachable b = false -> b' = b)
    /\ (channel_open b = false -> reachable b = true ->
        channel_open b' = true
        /\ declared b' = declared b ++ [("amq.topic", TOPIC, true)])
    /\ length (received b') = (length (received b) + (if r then 1 else 0))%nat.
Proof.
  unfold publish_event, publish_try, connect, default_exchange_publish.
  destruct (channel_open b) eqn:Hopen, (reachable b) eqn:Hreach, (accepting b) eqn:Hacc;
    simpl; rewrite ?Hacc; simpl; eexists _, _; (split; [reflexivity|]); simpl;
    rewrite ?length_app; simpl; repeat split; try done; try lia.
  all: by destruct b; simpl in *; subst.
Qed.
